(** * Sistema de nomina: shallow embedding of the payroll model

    The Python classes of [src/models] are embedded as records and
    functions.  [date.today()] is an explicit argument [hoy], read once
    for a whole method call; a raised [ValueError] is the [Error] outcome
    of a small exception monad.

    Amounts of money are embedded twice.  The classes at the top level
    take them as exact rationals ([Q]): finite amounts, with arithmetic
    that neither rounds nor overflows.  The module [Binary64] takes them as
    the IEEE 754 binary64 numbers that Python computes with, infinities
    and NaN included; it decides what happens at those values. *)

From Stdlib Require Import ZArith QArith Qminmax Ascii String List Bool Lia Lqa.
From Stdlib Require Import Floats.
Import ListNotations.

Open Scope Z_scope.

(** ** Exceptions *)

Inductive resultado (A : Type) : Type :=
| Ok (a : A)
| Error (mensaje : string).

Arguments Ok {A} a.
Arguments Error {A} mensaje.

Definition bind {A B : Type} (r : resultado A) (k : A -> resultado B)
  : resultado B :=
  match r with
  | Ok a => k a
  | Error m => Error m
  end.

Notation "x <- r ;; k" := (bind r (fun x => k))
  (at level 61, r at next level, right associativity).

(** [raise_if c m] is the statement [if c: raise ValueError(m)]. *)
Definition raise_if (c : bool) (m : string) : resultado unit :=
  if c then Error m else Ok tt.

Definition es_error {A : Type} (r : resultado A) : bool :=
  match r with
  | Ok _ => false
  | Error _ => true
  end.

(** ** Python numbers and the builtins [max] and [min] *)

(** [a < b] on numbers. *)
Definition Qltb (a b : Q) : bool := negb (Qle_bool b a).

(** [max(a, b)]: the first argument is kept unless the second is strictly
    greater. *)
Definition py_max (a b : Q) : Q := if Qltb a b then b else a.

(** [min(a, b)]: the first argument is kept unless the second is strictly
    smaller. *)
Definition py_min (a b : Q) : Q := if Qltb b a then b else a.

(** ** Calendar dates ([datetime.date]) *)

Record date : Set := mkdate { year : Z; month : Z; day : Z }.

Definition is_leap (y : Z) : bool :=
  (y mod 4 =? 0) && (negb (y mod 100 =? 0) || (y mod 400 =? 0)).

Definition days_in_month (y m : Z) : Z :=
  if m =? 2 then (if is_leap y then 29 else 28)
  else if (m =? 4) || (m =? 6) || (m =? 9) || (m =? 11) then 30
  else 31.

(** Dates that the [date] constructor accepts. *)
Definition fecha_valida (d : date) : Prop :=
  1 <= year d <= 9999 /\ 1 <= month d <= 12 /\
  1 <= day d <= days_in_month (year d) (month d).

Definition days_before_year (y : Z) : Z :=
  let p := y - 1 in p * 365 + p / 4 - p / 100 + p / 400.

Definition days_before_month (y m : Z) : Z :=
  match m with
  | 1 => 0 | 2 => 31 | 3 => 59 | 4 => 90 | 5 => 120 | 6 => 151
  | 7 => 181 | 8 => 212 | 9 => 243 | 10 => 273 | 11 => 304 | _ => 334
  end + (if (2 <? m) && is_leap y then 1 else 0).

(** [d.toordinal()]: day number in the proleptic Gregorian calendar. *)
Definition toordinal (d : date) : Z :=
  days_before_year (year d) + days_before_month (year d) (month d) + day d.

(** Comparison of [(a, b)] pairs as Python compares tuples. *)
Definition par_ltb (a b : Z * Z) : bool :=
  (fst a <? fst b) || ((fst a =? fst b) && (snd a <? snd b)).

(** [a < b] and [a <= b] on dates: year, then month, then day. *)
Definition date_ltb (a b : date) : bool :=
  (year a <? year b) ||
  ((year a =? year b) && par_ltb (month a, day a) (month b, day b)).

Definition date_leb (a b : date) : bool := negb (date_ltb b a).

(** [(a - b).days] *)
Definition date_sub_days (a b : date) : Z := toordinal a - toordinal b.

(** The calendar day after [d]; it is what "one day later" means when
    day counts are checked below. *)
Definition dia_siguiente (d : date) : date :=
  if day d <? days_in_month (year d) (month d)
  then mkdate (year d) (month d) (day d + 1)
  else if month d <? 12
       then mkdate (year d) (month d + 1) 1
       else mkdate (year d + 1) 1 1.

(** ** Class [Empleado] (abstract base) *)

Open Scope Q_scope.

(** Truth value of a string: [not s] holds for the empty string only. *)
Definition py_not (s : string) : bool :=
  match s with
  | EmptyString => true
  | String _ _ => false
  end.

Module Empleado.

Record t : Set := mk {
  _id_empleado : string;
  _nombre : string;
  _fecha_ingreso : date
}.

Definition _validar_datos (hoy : date) (self : t) : resultado unit :=
  _ <- raise_if (py_not (_id_empleado self) || py_not (_nombre self))
         "ID y nombre son obligatorios" ;;
  raise_if (date_ltb hoy (_fecha_ingreso self))
    "La fecha de ingreso no puede ser futura".

Definition __init__ (hoy : date) (id_empleado nombre : string)
    (fecha_ingreso : date) : resultado t :=
  let self := mk id_empleado nombre fecha_ingreso in
  _ <- _validar_datos hoy self ;;
  Ok self.

Definition calcular_deducciones (self : t) (salario_bruto : Q) : Q :=
  salario_bruto * 0.04.

Definition obtener_antiguedad_años (hoy : date) (self : t) : Z :=
  let años := (year hoy - year (_fecha_ingreso self))%Z in
  if par_ltb (month hoy, day hoy)
             (month (_fecha_ingreso self), day (_fecha_ingreso self))
  then (años - 1)%Z
  else años.

Definition id_empleado (self : t) : string := _id_empleado self.
Definition nombre (self : t) : string := _nombre self.
Definition fecha_ingreso (self : t) : date := _fecha_ingreso self.

End Empleado.

(** ** The abstract interface and the methods shared through it

    [Empleado] declares [calcular_salario_bruto] and [calcular_beneficios]
    abstract; every concrete class supplies them.  [super] gives the
    inherited part of an object. *)

Class Nomina (T : Type) : Type := {
  super : T -> Empleado.t;
  calcular_salario_bruto : T -> Q;
  calcular_beneficios : date -> T -> Q
}.

Section Heredados.

Context {T : Type} `{Nomina T}.

Definition calcular_deducciones (self : T) (salario_bruto : Q) : Q :=
  Empleado.calcular_deducciones (super self) salario_bruto.

Definition calcular_salario_neto (hoy : date) (self : T) : Q :=
  let salario_bruto := calcular_salario_bruto self in
  let beneficios := calcular_beneficios hoy self in
  let deducciones := calcular_deducciones self salario_bruto in
  let salario_neto := salario_bruto + beneficios - deducciones in
  py_max 0 salario_neto.

Definition obtener_antiguedad_años (hoy : date) (self : T) : Z :=
  Empleado.obtener_antiguedad_años hoy (super self).

Definition nombre (self : T) : string := Empleado.nombre (super self).

End Heredados.

(** ** Values and dictionaries of [obtener_detalle_nomina] *)

Inductive valor : Set :=
| VStr (s : string)
| VNum (q : Q)
| VInt (z : Z)
| VBool (b : bool).

(** A dictionary keeps its entries in insertion order. *)
Definition dict : Set := list (string * valor).

Definition claves (d : dict) : list string := map fst d.

(** No key occurs twice; a dict literal with such keys keeps every
    entry. *)
Fixpoint sin_repetidos (l : list string) : bool :=
  match l with
  | [] => true
  | x :: r => negb (existsb (String.eqb x) r) && sin_repetidos r
  end.

Fixpoint dict_get (d : dict) (k : string) : option valor :=
  match d with
  | [] => None
  | (k', v) :: r => if String.eqb k k' then Some v else dict_get r k
  end.

(** ** Class [EmpleadoAsalariado] *)

Module EmpleadoAsalariado.

Definition BONO_ALIMENTACION : Q := 1000000.
Definition PORCENTAJE_BONO_ANTIGUEDAD : Q := 0.10.
Definition AÑOS_MINIMOS_BONO : Z := 5.

Record t : Set := mk {
  base : Empleado.t;
  _salario_mensual : Q
}.

Definition __init__ (hoy : date) (id_empleado nombre : string)
    (fecha_ingreso : date) (salario_mensual : Q) : resultado t :=
  b <- Empleado.__init__ hoy id_empleado nombre fecha_ingreso ;;
  _ <- raise_if (Qle_bool salario_mensual 0)
         "El salario mensual debe ser mayor a cero" ;;
  Ok (mk b salario_mensual).

Definition calcular_salario_bruto (self : t) : Q := _salario_mensual self.

Definition _calcular_bono_antiguedad (hoy : date) (self : t) : Q :=
  if (AÑOS_MINIMOS_BONO <? Empleado.obtener_antiguedad_años hoy (base self))%Z
  then _salario_mensual self * PORCENTAJE_BONO_ANTIGUEDAD
  else 0.

Definition calcular_beneficios (hoy : date) (self : t) : Q :=
  let bono_antiguedad := _calcular_bono_antiguedad hoy self in
  BONO_ALIMENTACION + bono_antiguedad.

Definition salario_mensual (self : t) : Q := _salario_mensual self.

#[global] Instance nomina : Nomina t := {
  super := base;
  calcular_salario_bruto := calcular_salario_bruto;
  calcular_beneficios := calcular_beneficios
}.

Definition obtener_detalle_nomina (hoy : date) (self : t) : dict :=
  let salario_bruto := calcular_salario_bruto self in
  let bono_antiguedad := _calcular_bono_antiguedad hoy self in
  let deducciones := calcular_deducciones self salario_bruto in
  [ ("empleado", VStr (nombre self));
    ("tipo", VStr "Asalariado");
    ("salario_bruto", VNum salario_bruto);
    ("bono_alimentacion", VNum BONO_ALIMENTACION);
    ("bono_antiguedad", VNum bono_antiguedad);
    ("deducciones", VNum deducciones);
    ("salario_neto", VNum (calcular_salario_neto hoy self)) ]%string.

End EmpleadoAsalariado.

(** ** Class [EmpleadoPorHoras] *)

Module EmpleadoPorHoras.

Definition HORAS_NORMALES_LIMITE : Q := 40.
Definition MULTIPLICADOR_HORAS_EXTRAS : Q := 1.5.
Definition PORCENTAJE_FONDO_AHORRO : Q := 0.02.
Definition AÑOS_MINIMOS_FONDO : Z := 1.

Record t : Set := mk {
  base : Empleado.t;
  _tarifa_por_hora : Q;
  _horas_trabajadas : Q;
  _acepta_fondo_ahorro : bool
}.

Definition __init__ (hoy : date) (id_empleado nombre : string)
    (fecha_ingreso : date) (tarifa_por_hora horas_trabajadas : Q)
    (acepta_fondo_ahorro : bool) : resultado t :=
  b <- Empleado.__init__ hoy id_empleado nombre fecha_ingreso ;;
  _ <- raise_if (Qle_bool tarifa_por_hora 0)
         "La tarifa por hora debe ser mayor a cero" ;;
  _ <- raise_if (Qltb horas_trabajadas 0)
         "Las horas trabajadas no pueden ser negativas" ;;
  Ok (mk b tarifa_por_hora horas_trabajadas acepta_fondo_ahorro).

Definition _calcular_horas_normales (self : t) : Q :=
  py_min (_horas_trabajadas self) HORAS_NORMALES_LIMITE.

Definition _calcular_horas_extras (self : t) : Q :=
  if Qltb HORAS_NORMALES_LIMITE (_horas_trabajadas self)
  then _horas_trabajadas self - HORAS_NORMALES_LIMITE
  else 0.

Definition calcular_salario_bruto (self : t) : Q :=
  let horas_normales := _calcular_horas_normales self in
  let horas_extras := _calcular_horas_extras self in
  let pago_normal := horas_normales * _tarifa_por_hora self in
  let pago_extras :=
    horas_extras * _tarifa_por_hora self * MULTIPLICADOR_HORAS_EXTRAS in
  pago_normal + pago_extras.

Definition _calcular_fondo_ahorro (hoy : date) (self : t) : Q :=
  if (AÑOS_MINIMOS_FONDO <? Empleado.obtener_antiguedad_años hoy (base self))%Z
     && _acepta_fondo_ahorro self
  then
    let salario_bruto := calcular_salario_bruto self in
    salario_bruto * PORCENTAJE_FONDO_AHORRO
  else 0.

Definition calcular_beneficios (hoy : date) (self : t) : Q :=
  _calcular_fondo_ahorro hoy self.

Definition tarifa_por_hora (self : t) : Q := _tarifa_por_hora self.
Definition horas_trabajadas (self : t) : Q := _horas_trabajadas self.

(** The setter runs on the object in place: it returns the outcome
    together with the object as the call leaves it. *)
Definition set_horas_trabajadas (horas : Q) (self : t)
  : resultado unit * t :=
  if Qltb horas 0
  then (Error "Las horas trabajadas no pueden ser negativas", self)
  else (Ok tt,
        mk (base self) (_tarifa_por_hora self) horas
           (_acepta_fondo_ahorro self)).

#[global] Instance nomina : Nomina t := {
  super := base;
  calcular_salario_bruto := calcular_salario_bruto;
  calcular_beneficios := calcular_beneficios
}.

Definition obtener_detalle_nomina (hoy : date) (self : t) : dict :=
  let salario_bruto := calcular_salario_bruto self in
  let fondo_ahorro := _calcular_fondo_ahorro hoy self in
  let deducciones := calcular_deducciones self salario_bruto in
  [ ("empleado", VStr (nombre self));
    ("tipo", VStr "Por Horas");
    ("horas_normales", VNum (_calcular_horas_normales self));
    ("horas_extras", VNum (_calcular_horas_extras self));
    ("salario_bruto", VNum salario_bruto);
    ("fondo_ahorro", VNum fondo_ahorro);
    ("deducciones", VNum deducciones);
    ("salario_neto", VNum (calcular_salario_neto hoy self)) ]%string.

End EmpleadoPorHoras.

(** ** Class [EmpleadoPorComision] *)

Module EmpleadoPorComision.

Definition BONO_ALIMENTACION : Q := 1000000.
Definition VENTAS_MINIMAS_BONO : Q := 20000000.
Definition PORCENTAJE_BONO_VENTAS : Q := 0.03.

Record t : Set := mk {
  base : Empleado.t;
  _salario_base : Q;
  _porcentaje_comision : Q;
  _ventas_mes : Q
}.

Definition __init__ (hoy : date) (id_empleado nombre : string)
    (fecha_ingreso : date)
    (salario_base porcentaje_comision ventas_mes : Q) : resultado t :=
  b <- Empleado.__init__ hoy id_empleado nombre fecha_ingreso ;;
  _ <- raise_if (Qle_bool salario_base 0)
         "El salario base debe ser mayor a cero" ;;
  _ <- raise_if (Qltb porcentaje_comision 0 || Qltb 1 porcentaje_comision)
         "El porcentaje de comisión debe estar entre 0 y 1" ;;
  _ <- raise_if (Qltb ventas_mes 0)
         "Las ventas no pueden ser negativas" ;;
  Ok (mk b salario_base porcentaje_comision ventas_mes).

Definition _calcular_comision (self : t) : Q :=
  _ventas_mes self * _porcentaje_comision self.

Definition _calcular_bono_ventas (self : t) : Q :=
  if Qltb VENTAS_MINIMAS_BONO (_ventas_mes self)
  then _ventas_mes self * PORCENTAJE_BONO_VENTAS
  else 0.

Definition calcular_salario_bruto (self : t) : Q :=
  let comision := _calcular_comision self in
  _salario_base self + comision.

Definition calcular_beneficios (hoy : date) (self : t) : Q :=
  let bono_ventas := _calcular_bono_ventas self in
  BONO_ALIMENTACION + bono_ventas.

Definition salario_base (self : t) : Q := _salario_base self.
Definition porcentaje_comision (self : t) : Q := _porcentaje_comision self.
Definition ventas_mes (self : t) : Q := _ventas_mes self.

Definition set_ventas_mes (ventas : Q) (self : t) : resultado unit * t :=
  if Qltb ventas 0
  then (Error "Las ventas no pueden ser negativas", self)
  else (Ok tt,
        mk (base self) (_salario_base self) (_porcentaje_comision self)
           ventas).

#[global] Instance nomina : Nomina t := {
  super := base;
  calcular_salario_bruto := calcular_salario_bruto;
  calcular_beneficios := calcular_beneficios
}.

Definition obtener_detalle_nomina (hoy : date) (self : t) : dict :=
  let salario_bruto := calcular_salario_bruto self in
  let comision := _calcular_comision self in
  let bono_ventas := _calcular_bono_ventas self in
  let deducciones := calcular_deducciones self salario_bruto in
  [ ("empleado", VStr (nombre self));
    ("tipo", VStr "Por Comisión");
    ("salario_base", VNum (_salario_base self));
    ("ventas", VNum (_ventas_mes self));
    ("comision", VNum comision);
    ("salario_bruto", VNum salario_bruto);
    ("bono_alimentacion", VNum BONO_ALIMENTACION);
    ("bono_ventas", VNum bono_ventas);
    ("deducciones", VNum deducciones);
    ("salario_neto", VNum (calcular_salario_neto hoy self)) ]%string.

End EmpleadoPorComision.

(** ** [date.strftime('%Y-%m-%d')]

    The year is written with four digits, as the Python documentation has
    it; for years below 1000 the C library of some platforms leaves the
    leading zeros out. *)

Definition digito (n : Z) : Ascii.ascii :=
  Ascii.ascii_of_N (48 + Z.to_N (n mod 10)).

Definition dos_digitos (n : Z) : string :=
  String (digito (n / 10)) (String (digito n) EmptyString).

Definition cuatro_digitos (n : Z) : string :=
  (dos_digitos (n / 100) ++ dos_digitos n)%string.

Definition strftime_Ymd (d : date) : string :=
  (cuatro_digitos (year d) ++ "-" ++ dos_digitos (month d) ++ "-"
   ++ dos_digitos (day d))%string.

(** ** Class [EmpleadoTemporal] *)

Module EmpleadoTemporal.

Record t : Set := mk {
  base : Empleado.t;
  _salario_mensual : Q;
  _fecha_fin_contrato : date
}.

Definition __init__ (hoy : date) (id_empleado nombre : string)
    (fecha_ingreso : date) (salario_mensual : Q)
    (fecha_fin_contrato : date) : resultado t :=
  b <- Empleado.__init__ hoy id_empleado nombre fecha_ingreso ;;
  _ <- raise_if (Qle_bool salario_mensual 0)
         "El salario mensual debe ser mayor a cero" ;;
  _ <- raise_if (date_leb fecha_fin_contrato fecha_ingreso)
         "La fecha de fin debe ser posterior a la fecha de ingreso" ;;
  Ok (mk b salario_mensual fecha_fin_contrato).

Definition calcular_salario_bruto (self : t) : Q := _salario_mensual self.

Definition calcular_beneficios (hoy : date) (self : t) : Q := 0.

Definition contrato_vigente (hoy : date) (self : t) : bool :=
  date_leb hoy (_fecha_fin_contrato self).

Definition dias_restantes_contrato (hoy : date) (self : t) : Z :=
  let diferencia := date_sub_days (_fecha_fin_contrato self) hoy in
  diferencia.

Definition salario_mensual (self : t) : Q := _salario_mensual self.
Definition fecha_fin_contrato (self : t) : date := _fecha_fin_contrato self.

#[global] Instance nomina : Nomina t := {
  super := base;
  calcular_salario_bruto := calcular_salario_bruto;
  calcular_beneficios := calcular_beneficios
}.

Definition obtener_detalle_nomina (hoy : date) (self : t) : dict :=
  let salario_bruto := calcular_salario_bruto self in
  let deducciones := calcular_deducciones self salario_bruto in
  [ ("empleado", VStr (nombre self));
    ("tipo", VStr "Temporal");
    ("salario_bruto", VNum salario_bruto);
    ("beneficios", VInt 0);
    ("deducciones", VNum deducciones);
    ("salario_neto", VNum (calcular_salario_neto hoy self));
    ("fecha_fin_contrato", VStr (strftime_Ymd (_fecha_fin_contrato self)));
    ("contrato_vigente", VBool (contrato_vigente hoy self));
    ("dias_restantes", VInt (dias_restantes_contrato hoy self)) ]%string.

End EmpleadoTemporal.

(** ** Any employee: the four concrete classes *)

Inductive empleado : Set :=
| Asalariado (e : EmpleadoAsalariado.t)
| PorHoras (e : EmpleadoPorHoras.t)
| PorComision (e : EmpleadoPorComision.t)
| Temporal (e : EmpleadoTemporal.t).

(** Method calls on an employee dispatch on its class. *)
#[global] Instance nomina_empleado : Nomina empleado := {
  super e :=
    match e with
    | Asalariado a => EmpleadoAsalariado.base a
    | PorHoras h => EmpleadoPorHoras.base h
    | PorComision c => EmpleadoPorComision.base c
    | Temporal t => EmpleadoTemporal.base t
    end;
  calcular_salario_bruto e :=
    match e with
    | Asalariado a => EmpleadoAsalariado.calcular_salario_bruto a
    | PorHoras h => EmpleadoPorHoras.calcular_salario_bruto h
    | PorComision c => EmpleadoPorComision.calcular_salario_bruto c
    | Temporal t => EmpleadoTemporal.calcular_salario_bruto t
    end;
  calcular_beneficios hoy e :=
    match e with
    | Asalariado a => EmpleadoAsalariado.calcular_beneficios hoy a
    | PorHoras h => EmpleadoPorHoras.calcular_beneficios hoy h
    | PorComision c => EmpleadoPorComision.calcular_beneficios hoy c
    | Temporal t => EmpleadoTemporal.calcular_beneficios hoy t
    end
}.

Definition obtener_detalle_nomina (hoy : date) (e : empleado) : dict :=
  match e with
  | Asalariado a => EmpleadoAsalariado.obtener_detalle_nomina hoy a
  | PorHoras h => EmpleadoPorHoras.obtener_detalle_nomina hoy h
  | PorComision c => EmpleadoPorComision.obtener_detalle_nomina hoy c
  | Temporal t => EmpleadoTemporal.obtener_detalle_nomina hoy t
  end.

(** ** The class hierarchy and method resolution *)

Inductive clase : Set :=
| CEmpleado
| CEmpleadoAsalariado
| CEmpleadoPorHoras
| CEmpleadoPorComision
| CEmpleadoTemporal.

Inductive metodo : Set :=
| M_calcular_salario_bruto
| M_calcular_beneficios
| M_calcular_deducciones
| M_calcular_salario_neto
| M_obtener_antiguedad_años
| M_obtener_detalle_nomina
| M_contrato_vigente
| M_dias_restantes_contrato.

(** [define c m]: the body of class [c] has a [def] for [m]. *)
Definition define (c : clase) (m : metodo) : bool :=
  match c, m with
  | CEmpleado, M_calcular_salario_bruto
  | CEmpleado, M_calcular_beneficios
  | CEmpleado, M_calcular_deducciones
  | CEmpleado, M_calcular_salario_neto
  | CEmpleado, M_obtener_antiguedad_años => true
  | CEmpleado, _ => false
  | CEmpleadoTemporal, M_contrato_vigente
  | CEmpleadoTemporal, M_dias_restantes_contrato => true
  | _, M_calcular_salario_bruto
  | _, M_calcular_beneficios
  | _, M_obtener_detalle_nomina => true
  | _, _ => false
  end.

(** Method resolution order: the class, then its base. *)
Definition mro (c : clase) : list clase :=
  match c with
  | CEmpleado => [CEmpleado]
  | _ => [c; CEmpleado]
  end.

Definition resolver (c : clase) (m : metodo) : option clase :=
  find (fun k => define k m) (mro c).

Definition clase_de (e : empleado) : clase :=
  match e with
  | Asalariado _ => CEmpleadoAsalariado
  | PorHoras _ => CEmpleadoPorHoras
  | PorComision _ => CEmpleadoPorComision
  | Temporal _ => CEmpleadoTemporal
  end.

(** ** Construction of any employee *)

Inductive argumentos : Set :=
| ArgsAsalariado (id_empleado nombre : string) (fecha_ingreso : date)
    (salario_mensual : Q)
| ArgsPorHoras (id_empleado nombre : string) (fecha_ingreso : date)
    (tarifa_por_hora horas_trabajadas : Q) (acepta_fondo_ahorro : bool)
| ArgsPorComision (id_empleado nombre : string) (fecha_ingreso : date)
    (salario_base porcentaje_comision ventas_mes : Q)
| ArgsTemporal (id_empleado nombre : string) (fecha_ingreso : date)
    (salario_mensual : Q) (fecha_fin_contrato : date).

(** The call [Clase(args)] with the clock at [hoy]. *)
Definition construir (hoy : date) (a : argumentos) : resultado empleado :=
  match a with
  | ArgsAsalariado i n f s =>
      e <- EmpleadoAsalariado.__init__ hoy i n f s ;; Ok (Asalariado e)
  | ArgsPorHoras i n f t h ac =>
      e <- EmpleadoPorHoras.__init__ hoy i n f t h ac ;; Ok (PorHoras e)
  | ArgsPorComision i n f s p v =>
      e <- EmpleadoPorComision.__init__ hoy i n f s p v ;; Ok (PorComision e)
  | ArgsTemporal i n f s fin =>
      e <- EmpleadoTemporal.__init__ hoy i n f s fin ;; Ok (Temporal e)
  end.

(** The object that holds the arguments as its fields. *)
Definition objeto_de (a : argumentos) : empleado :=
  match a with
  | ArgsAsalariado i n f s =>
      Asalariado (EmpleadoAsalariado.mk (Empleado.mk i n f) s)
  | ArgsPorHoras i n f t h ac =>
      PorHoras (EmpleadoPorHoras.mk (Empleado.mk i n f) t h ac)
  | ArgsPorComision i n f s p v =>
      PorComision (EmpleadoPorComision.mk (Empleado.mk i n f) s p v)
  | ArgsTemporal i n f s fin =>
      Temporal (EmpleadoTemporal.mk (Empleado.mk i n f) s fin)
  end.

(** Order of dates as propositions. *)
Definition date_lt (a b : date) : Prop :=
  (year a < year b)%Z \/
  (year a = year b /\
   ((month a < month b)%Z \/ (month a = month b /\ (day a < day b)%Z))).

Definition date_le (a b : date) : Prop := a = b \/ date_lt a b.

(** The conditions under which the specification makes construction
    fail: the common ones, then the ones of the class. *)
Definition datos_basicos_invalidos (hoy : date) (i n : string) (f : date)
  : Prop :=
  i = EmptyString \/ n = EmptyString \/ date_lt hoy f.

Definition condicion_invalida (hoy : date) (a : argumentos) : Prop :=
  match a with
  | ArgsAsalariado i n f s =>
      datos_basicos_invalidos hoy i n f \/ s <= 0
  | ArgsPorHoras i n f t h _ =>
      datos_basicos_invalidos hoy i n f \/ t <= 0 \/ h < 0
  | ArgsPorComision i n f s p v =>
      datos_basicos_invalidos hoy i n f \/ s <= 0 \/ (p < 0 \/ 1 < p) \/ v < 0
  | ArgsTemporal i n f s fin =>
      datos_basicos_invalidos hoy i n f \/ s <= 0 \/ date_le fin f
  end.

(** The state of an employee that exists: what validation guarantees. *)
Definition datos_basicos_validos (b : Empleado.t) : Prop :=
  Empleado.id_empleado b <> EmptyString /\ Empleado.nombre b <> EmptyString.

Definition estado_valido (e : empleado) : Prop :=
  datos_basicos_validos (super e) /\
  match e with
  | Asalariado a => 0 < EmpleadoAsalariado.salario_mensual a
  | PorHoras h =>
      0 < EmpleadoPorHoras.tarifa_por_hora h /\
      0 <= EmpleadoPorHoras.horas_trabajadas h
  | PorComision c =>
      0 < EmpleadoPorComision.salario_base c /\
      0 <= EmpleadoPorComision.porcentaje_comision c <= 1 /\
      0 <= EmpleadoPorComision.ventas_mes c
  | Temporal t =>
      0 < EmpleadoTemporal.salario_mensual t /\
      date_lt (Empleado.fecha_ingreso (EmpleadoTemporal.base t))
              (EmpleadoTemporal.fecha_fin_contrato t)
  end.

(** Employees a program can hold: built by a constructor at some date,
    then possibly changed through the setters. *)
Inductive construido : empleado -> Prop :=
| construido_nuevo (hoy : date) (a : argumentos) (e : empleado) :
    construir hoy a = Ok e -> construido e
| construido_set_horas (h h' : EmpleadoPorHoras.t) (horas : Q)
    (r : resultado unit) :
    construido (PorHoras h) ->
    EmpleadoPorHoras.set_horas_trabajadas horas h = (r, h') ->
    construido (PorHoras h')
| construido_set_ventas (c c' : EmpleadoPorComision.t) (ventas : Q)
    (r : resultado unit) :
    construido (PorComision c) ->
    EmpleadoPorComision.set_ventas_mes ventas c = (r, c') ->
    construido (PorComision c').

(** ** The fields of the breakdown, as the specification lists them *)

(** The fields of each class after the employee name and the type tag, in
    the order of section 4 of the specification. *)
Definition campos_propios (c : clase) : list string :=
  match c with
  | CEmpleado => []
  | CEmpleadoAsalariado =>
      ["salario_bruto"; "bono_alimentacion"; "bono_antiguedad";
       "deducciones"; "salario_neto"]
  | CEmpleadoPorHoras =>
      ["horas_normales"; "horas_extras"; "salario_bruto"; "fondo_ahorro";
       "deducciones"; "salario_neto"]
  | CEmpleadoPorComision =>
      ["salario_base"; "ventas"; "comision"; "salario_bruto";
       "bono_alimentacion"; "bono_ventas"; "deducciones"; "salario_neto"]
  | CEmpleadoTemporal =>
      ["salario_bruto"; "beneficios"; "deducciones"; "salario_neto";
       "fecha_fin_contrato"; "contrato_vigente"; "dias_restantes"]
  end%string.

(** The list of section 4 for each class: it names the employee name and
    the type tag for salaried employees only. *)
Definition campos_listados (c : clase) : list string :=
  match c with
  | CEmpleadoAsalariado => "empleado" :: "tipo" :: campos_propios c
  | _ => campos_propios c
  end%string.

(** ** Sample objects, used to exercise the statements below *)

Definition hoy_ejemplo : date := mkdate 2025 1 15.

Definition asalariado_ejemplo (ingreso : date) : EmpleadoAsalariado.t :=
  EmpleadoAsalariado.mk (Empleado.mk "001" "Juan" ingreso) 5000000.

Definition por_horas_ejemplo (ingreso : date) (horas : Q) (acepta : bool)
  : EmpleadoPorHoras.t :=
  EmpleadoPorHoras.mk (Empleado.mk "002" "Maria" ingreso) 50000 horas acepta.

Definition por_comision_ejemplo (ventas : Q) : EmpleadoPorComision.t :=
  EmpleadoPorComision.mk (Empleado.mk "003" "Carlos" (mkdate 2020 1 1))
    2000000 0.05 ventas.

Definition temporal_ejemplo : EmpleadoTemporal.t :=
  EmpleadoTemporal.mk (Empleado.mk "004" "Ana" (mkdate 2024 1 1)) 3000000
    (mkdate 2025 12 31).

Definition args_por_horas_ejemplo : argumentos :=
  ArgsPorHoras "002" "Maria" (mkdate 2022 1 1) 50000 40 true.

(** ** [Empleado.__str__] *)

(** [self.__class__.__name__] *)
Definition nombre_clase (c : clase) : string :=
  match c with
  | CEmpleado => "Empleado"
  | CEmpleadoAsalariado => "EmpleadoAsalariado"
  | CEmpleadoPorHoras => "EmpleadoPorHoras"
  | CEmpleadoPorComision => "EmpleadoPorComision"
  | CEmpleadoTemporal => "EmpleadoTemporal"
  end.

Definition __str__ (e : empleado) : string :=
  (nombre_clase (clase_de e) ++ ": " ++ Empleado._nombre (super e)
   ++ " (ID: " ++ Empleado._id_empleado (super e) ++ ")")%string.

(** ** The demonstration program ([main.py]) *)

(** [sum(emp.calcular_salario_neto() for emp in empleados)]: the net pays
    are added from left to right, starting from 0. *)
Definition total_salarios (hoy : date) (empleados : list empleado) : Q :=
  fold_left (fun total emp => total + calcular_salario_neto hoy emp)
    empleados 0.

(** [clave.replace('_', ' ')] *)
Fixpoint replace_guion (s : string) : string :=
  match s with
  | EmptyString => EmptyString
  | String c r =>
      String (if Ascii.eqb c "_"%char then " "%char else c) (replace_guion r)
  end.

Definition es_minuscula (c : Ascii.ascii) : bool :=
  let n := Ascii.N_of_ascii c in ((97 <=? n) && (n <=? 122))%N.

Definition es_mayuscula (c : Ascii.ascii) : bool :=
  let n := Ascii.N_of_ascii c in ((65 <=? n) && (n <=? 90))%N.

Definition a_mayuscula (c : Ascii.ascii) : Ascii.ascii :=
  if es_minuscula c then Ascii.ascii_of_N (Ascii.N_of_ascii c - 32) else c.

Definition a_minuscula (c : Ascii.ascii) : Ascii.ascii :=
  if es_mayuscula c then Ascii.ascii_of_N (Ascii.N_of_ascii c + 32) else c.

(** [s.title()] on ASCII text: a letter that follows a letter is made
    lower case, any other letter upper case; [previa] tells whether the
    previous character is a letter. *)
Fixpoint title_desde (previa : bool) (s : string) : string :=
  match s with
  | EmptyString => EmptyString
  | String c r =>
      if es_minuscula c || es_mayuscula c
      then String (if previa then a_minuscula c else a_mayuscula c)
             (title_desde true r)
      else String c (title_desde false r)
  end.

Definition title (s : string) : string := title_desde false s.

Fixpoint puntos (n : nat) : string :=
  match n with
  | O => EmptyString
  | S k => String "."%char (puntos k)
  end.

(** The format [{s:.<40}]: [s] followed by dots up to a width of 40. *)
Definition rellenar_40 (s : string) : string :=
  (s ++ puntos (40 - String.length s))%string.

(** The label that [mostrar_detalle_nomina] prints for a key. *)
Definition etiqueta (clave : string) : string :=
  rellenar_40 (title (replace_guion clave)).

(** ** Anniversaries *)

(** The day and month of [f], [n] years later, as a year-month-day triple;
    it is compared with dates in the order of [date_lt]. *)
Definition aniversario (f : date) (n : Z) : date :=
  mkdate (year f + n) (month f) (day f).

(** * The same classes with amounts as Python floats

    The definitions above take amounts as exact rationals.  Python
    computes them as IEEE 754 binary64 numbers, which also hold infinities
    and NaN, compare false with NaN on either side, and round.  The module
    [Binary64] embeds the amount-bearing code of the four classes with
    amounts as [float]; the base class, which holds no amount, is shared. *)

Module Binary64.

#[local] Set Warnings "-inexact-float".
#[local] Open Scope float_scope.

(** [max(a, b)] and [min(a, b)] as the builtins compare. *)
Definition py_max (a b : float) : float := if a <? b then b else a.

Definition py_min (a b : float) : float := if b <? a then b else a.

Class Nomina (T : Type) : Type := {
  super : T -> Empleado.t;
  calcular_salario_bruto : T -> float;
  calcular_beneficios : date -> T -> float
}.

Section Heredados.

Context {T : Type} `{Nomina T}.

Definition calcular_deducciones (self : T) (salario_bruto : float) : float :=
  salario_bruto * 0.04.

Definition calcular_salario_neto (hoy : date) (self : T) : float :=
  let salario_bruto := calcular_salario_bruto self in
  let beneficios := calcular_beneficios hoy self in
  let deducciones := calcular_deducciones self salario_bruto in
  let salario_neto := salario_bruto + beneficios - deducciones in
  py_max 0 salario_neto.

End Heredados.

Module EmpleadoAsalariado.

Definition BONO_ALIMENTACION : float := 1000000.
Definition PORCENTAJE_BONO_ANTIGUEDAD : float := 0.10.
Definition AÑOS_MINIMOS_BONO : Z := 5.

Record t : Set := mk {
  base : Empleado.t;
  _salario_mensual : float
}.

Definition __init__ (hoy : date) (id_empleado nombre : string)
    (fecha_ingreso : date) (salario_mensual : float) : resultado t :=
  b <- Empleado.__init__ hoy id_empleado nombre fecha_ingreso ;;
  _ <- raise_if (salario_mensual <=? 0)
         "El salario mensual debe ser mayor a cero" ;;
  Ok (mk b salario_mensual).

Definition calcular_salario_bruto (self : t) : float := _salario_mensual self.

Definition _calcular_bono_antiguedad (hoy : date) (self : t) : float :=
  if (AÑOS_MINIMOS_BONO <? Empleado.obtener_antiguedad_años hoy (base self))%Z
  then _salario_mensual self * PORCENTAJE_BONO_ANTIGUEDAD
  else 0.

Definition calcular_beneficios (hoy : date) (self : t) : float :=
  let bono_antiguedad := _calcular_bono_antiguedad hoy self in
  BONO_ALIMENTACION + bono_antiguedad.

#[global] Instance nomina : Nomina t := {
  super := base;
  calcular_salario_bruto := calcular_salario_bruto;
  calcular_beneficios := calcular_beneficios
}.

End EmpleadoAsalariado.

Module EmpleadoPorHoras.

Definition HORAS_NORMALES_LIMITE : float := 40.
Definition MULTIPLICADOR_HORAS_EXTRAS : float := 1.5.
Definition PORCENTAJE_FONDO_AHORRO : float := 0.02.
Definition AÑOS_MINIMOS_FONDO : Z := 1.

Record t : Set := mk {
  base : Empleado.t;
  _tarifa_por_hora : float;
  _horas_trabajadas : float;
  _acepta_fondo_ahorro : bool
}.

Definition __init__ (hoy : date) (id_empleado nombre : string)
    (fecha_ingreso : date) (tarifa_por_hora horas_trabajadas : float)
    (acepta_fondo_ahorro : bool) : resultado t :=
  b <- Empleado.__init__ hoy id_empleado nombre fecha_ingreso ;;
  _ <- raise_if (tarifa_por_hora <=? 0)
         "La tarifa por hora debe ser mayor a cero" ;;
  _ <- raise_if (horas_trabajadas <? 0)
         "Las horas trabajadas no pueden ser negativas" ;;
  Ok (mk b tarifa_por_hora horas_trabajadas acepta_fondo_ahorro).

Definition _calcular_horas_normales (self : t) : float :=
  py_min (_horas_trabajadas self) HORAS_NORMALES_LIMITE.

Definition _calcular_horas_extras (self : t) : float :=
  if HORAS_NORMALES_LIMITE <? _horas_trabajadas self
  then _horas_trabajadas self - HORAS_NORMALES_LIMITE
  else 0.

Definition calcular_salario_bruto (self : t) : float :=
  let horas_normales := _calcular_horas_normales self in
  let horas_extras := _calcular_horas_extras self in
  let pago_normal := horas_normales * _tarifa_por_hora self in
  let pago_extras :=
    horas_extras * _tarifa_por_hora self * MULTIPLICADOR_HORAS_EXTRAS in
  pago_normal + pago_extras.

Definition _calcular_fondo_ahorro (hoy : date) (self : t) : float :=
  if (AÑOS_MINIMOS_FONDO
      <? Empleado.obtener_antiguedad_años hoy (base self))%Z
     && _acepta_fondo_ahorro self
  then
    let salario_bruto := calcular_salario_bruto self in
    salario_bruto * PORCENTAJE_FONDO_AHORRO
  else 0.

Definition calcular_beneficios (hoy : date) (self : t) : float :=
  _calcular_fondo_ahorro hoy self.

Definition set_horas_trabajadas (horas : float) (self : t)
  : resultado unit * t :=
  if horas <? 0
  then (Error "Las horas trabajadas no pueden ser negativas", self)
  else (Ok tt,
        mk (base self) (_tarifa_por_hora self) horas
           (_acepta_fondo_ahorro self)).

#[global] Instance nomina : Nomina t := {
  super := base;
  calcular_salario_bruto := calcular_salario_bruto;
  calcular_beneficios := calcular_beneficios
}.

End EmpleadoPorHoras.

Module EmpleadoPorComision.

Definition BONO_ALIMENTACION : float := 1000000.
Definition VENTAS_MINIMAS_BONO : float := 20000000.
Definition PORCENTAJE_BONO_VENTAS : float := 0.03.

Record t : Set := mk {
  base : Empleado.t;
  _salario_base : float;
  _porcentaje_comision : float;
  _ventas_mes : float
}.

Definition __init__ (hoy : date) (id_empleado nombre : string)
    (fecha_ingreso : date)
    (salario_base porcentaje_comision ventas_mes : float) : resultado t :=
  b <- Empleado.__init__ hoy id_empleado nombre fecha_ingreso ;;
  _ <- raise_if (salario_base <=? 0)
         "El salario base debe ser mayor a cero" ;;
  _ <- raise_if ((porcentaje_comision <? 0) || (1 <? porcentaje_comision))
         "El porcentaje de comisión debe estar entre 0 y 1" ;;
  _ <- raise_if (ventas_mes <? 0)
         "Las ventas no pueden ser negativas" ;;
  Ok (mk b salario_base porcentaje_comision ventas_mes).

Definition _calcular_comision (self : t) : float :=
  _ventas_mes self * _porcentaje_comision self.

Definition _calcular_bono_ventas (self : t) : float :=
  if VENTAS_MINIMAS_BONO <? _ventas_mes self
  then _ventas_mes self * PORCENTAJE_BONO_VENTAS
  else 0.

Definition calcular_salario_bruto (self : t) : float :=
  let comision := _calcular_comision self in
  _salario_base self + comision.

Definition calcular_beneficios (hoy : date) (self : t) : float :=
  let bono_ventas := _calcular_bono_ventas self in
  BONO_ALIMENTACION + bono_ventas.

Definition set_ventas_mes (ventas : float) (self : t)
  : resultado unit * t :=
  if ventas <? 0
  then (Error "Las ventas no pueden ser negativas", self)
  else (Ok tt,
        mk (base self) (_salario_base self) (_porcentaje_comision self)
           ventas).

#[global] Instance nomina : Nomina t := {
  super := base;
  calcular_salario_bruto := calcular_salario_bruto;
  calcular_beneficios := calcular_beneficios
}.

End EmpleadoPorComision.

Module EmpleadoTemporal.

Record t : Set := mk {
  base : Empleado.t;
  _salario_mensual : float;
  _fecha_fin_contrato : date
}.

Definition __init__ (hoy : date) (id_empleado nombre : string)
    (fecha_ingreso : date) (salario_mensual : float)
    (fecha_fin_contrato : date) : resultado t :=
  b <- Empleado.__init__ hoy id_empleado nombre fecha_ingreso ;;
  _ <- raise_if (salario_mensual <=? 0)
         "El salario mensual debe ser mayor a cero" ;;
  _ <- raise_if (date_leb fecha_fin_contrato fecha_ingreso)
         "La fecha de fin debe ser posterior a la fecha de ingreso" ;;
  Ok (mk b salario_mensual fecha_fin_contrato).

Definition calcular_salario_bruto (self : t) : float := _salario_mensual self.

Definition calcular_beneficios (hoy : date) (self : t) : float := 0.

#[global] Instance nomina : Nomina t := {
  super := base;
  calcular_salario_bruto := calcular_salario_bruto;
  calcular_beneficios := calcular_beneficios
}.

End EmpleadoTemporal.

(** Any employee, and the call [Clase(args)]. *)
Inductive empleado : Set :=
| Asalariado (e : EmpleadoAsalariado.t)
| PorHoras (e : EmpleadoPorHoras.t)
| PorComision (e : EmpleadoPorComision.t)
| Temporal (e : EmpleadoTemporal.t).

#[global] Instance nomina_empleado : Nomina empleado := {
  super e :=
    match e with
    | Asalariado a => EmpleadoAsalariado.base a
    | PorHoras h => EmpleadoPorHoras.base h
    | PorComision c => EmpleadoPorComision.base c
    | Temporal t => EmpleadoTemporal.base t
    end;
  calcular_salario_bruto e :=
    match e with
    | Asalariado a => EmpleadoAsalariado.calcular_salario_bruto a
    | PorHoras h => EmpleadoPorHoras.calcular_salario_bruto h
    | PorComision c => EmpleadoPorComision.calcular_salario_bruto c
    | Temporal t => EmpleadoTemporal.calcular_salario_bruto t
    end;
  calcular_beneficios hoy e :=
    match e with
    | Asalariado a => EmpleadoAsalariado.calcular_beneficios hoy a
    | PorHoras h => EmpleadoPorHoras.calcular_beneficios hoy h
    | PorComision c => EmpleadoPorComision.calcular_beneficios hoy c
    | Temporal t => EmpleadoTemporal.calcular_beneficios hoy t
    end
}.

Inductive argumentos : Set :=
| ArgsAsalariado (id_empleado nombre : string) (fecha_ingreso : date)
    (salario_mensual : float)
| ArgsPorHoras (id_empleado nombre : string) (fecha_ingreso : date)
    (tarifa_por_hora horas_trabajadas : float) (acepta_fondo_ahorro : bool)
| ArgsPorComision (id_empleado nombre : string) (fecha_ingreso : date)
    (salario_base porcentaje_comision ventas_mes : float)
| ArgsTemporal (id_empleado nombre : string) (fecha_ingreso : date)
    (salario_mensual : float) (fecha_fin_contrato : date).

Definition construir (hoy : date) (a : argumentos) : resultado empleado :=
  match a with
  | ArgsAsalariado i n f s =>
      e <- EmpleadoAsalariado.__init__ hoy i n f s ;; Ok (Asalariado e)
  | ArgsPorHoras i n f t h ac =>
      e <- EmpleadoPorHoras.__init__ hoy i n f t h ac ;; Ok (PorHoras e)
  | ArgsPorComision i n f s p v =>
      e <- EmpleadoPorComision.__init__ hoy i n f s p v ;; Ok (PorComision e)
  | ArgsTemporal i n f s fin =>
      e <- EmpleadoTemporal.__init__ hoy i n f s fin ;; Ok (Temporal e)
  end.

(** The object that holds the arguments as its fields. *)
Definition objeto_de (a : argumentos) : empleado :=
  match a with
  | ArgsAsalariado i n f s =>
      Asalariado (EmpleadoAsalariado.mk (Empleado.mk i n f) s)
  | ArgsPorHoras i n f t h ac =>
      PorHoras (EmpleadoPorHoras.mk (Empleado.mk i n f) t h ac)
  | ArgsPorComision i n f s p v =>
      PorComision (EmpleadoPorComision.mk (Empleado.mk i n f) s p v)
  | ArgsTemporal i n f s fin =>
      Temporal (EmpleadoTemporal.mk (Empleado.mk i n f) s fin)
  end.

(** Order of floats as propositions: both are false when a side is NaN. *)
Definition Flt (x y : float) : Prop := (x <? y) = true.
Definition Fle (x y : float) : Prop := (x <=? y) = true.

(** The amounts among the arguments. *)
Definition montos (a : argumentos) : list float :=
  match a with
  | ArgsAsalariado _ _ _ s => [s]
  | ArgsPorHoras _ _ _ t h _ => [t; h]
  | ArgsPorComision _ _ _ s p v => [s; p; v]
  | ArgsTemporal _ _ _ s _ => [s]
  end.

(** No amount among the arguments is NaN. *)
Definition sin_nan (a : argumentos) : Prop :=
  Forall (fun x => is_nan x = false) (montos a).

(** The conditions under which the specification makes construction
    fail, with amounts as floats: a rate is outside [0, 1] when it is not
    both at least 0 and at most 1. *)
Definition condicion_invalida (hoy : date) (a : argumentos) : Prop :=
  match a with
  | ArgsAsalariado i n f s =>
      datos_basicos_invalidos hoy i n f \/ Fle s 0
  | ArgsPorHoras i n f t h _ =>
      datos_basicos_invalidos hoy i n f \/ Fle t 0 \/ Flt h 0
  | ArgsPorComision i n f s p v =>
      datos_basicos_invalidos hoy i n f \/ Fle s 0
      \/ ~ (Fle 0 p /\ Fle p 1) \/ Flt v 0
  | ArgsTemporal i n f s fin =>
      datos_basicos_invalidos hoy i n f \/ Fle s 0 \/ date_le fin f
  end.

(** The state of an employee that exists, as the specification has it. *)
Definition estado_valido (e : empleado) : Prop :=
  datos_basicos_validos (super e) /\
  match e with
  | Asalariado a => Flt 0 (EmpleadoAsalariado._salario_mensual a)
  | PorHoras h =>
      Flt 0 (EmpleadoPorHoras._tarifa_por_hora h) /\
      Fle 0 (EmpleadoPorHoras._horas_trabajadas h)
  | PorComision c =>
      Flt 0 (EmpleadoPorComision._salario_base c) /\
      (Fle 0 (EmpleadoPorComision._porcentaje_comision c) /\
       Fle (EmpleadoPorComision._porcentaje_comision c) 1) /\
      Fle 0 (EmpleadoPorComision._ventas_mes c)
  | Temporal t =>
      Flt 0 (EmpleadoTemporal._salario_mensual t) /\
      date_lt (Empleado.fecha_ingreso (EmpleadoTemporal.base t))
              (EmpleadoTemporal._fecha_fin_contrato t)
  end.

(** Employees a program can hold when it never passes NaN: built by a
    constructor from arguments without NaN, then possibly changed through
    the setters with values that are not NaN. *)
Inductive construido_sin_nan : empleado -> Prop :=
| construido_nuevo (hoy : date) (a : argumentos) (e : empleado) :
    sin_nan a -> construir hoy a = Ok e -> construido_sin_nan e
| construido_set_horas (h h' : EmpleadoPorHoras.t) (horas : float)
    (r : resultado unit) :
    construido_sin_nan (PorHoras h) ->
    is_nan horas = false ->
    EmpleadoPorHoras.set_horas_trabajadas horas h = (r, h') ->
    construido_sin_nan (PorHoras h')
| construido_set_ventas (c c' : EmpleadoPorComision.t) (ventas : float)
    (r : resultado unit) :
    construido_sin_nan (PorComision c) ->
    is_nan ventas = false ->
    EmpleadoPorComision.set_ventas_mes ventas c = (r, c') ->
    construido_sin_nan (PorComision c').

(** Sample arguments with amounts that are not ordinary numbers. *)
Definition args_comision_nan : argumentos :=
  ArgsPorComision "003" "Carlos" (mkdate 2020 1 1) 2000000 nan 15000000.

Definition args_salario_infinito : argumentos :=
  ArgsAsalariado "001" "Juan" (mkdate 2020 1 1) infinity.

Definition args_horas_desbordan : argumentos :=
  ArgsPorHoras "002" "Maria" (mkdate 2022 1 1) 1e200 1e200 false.

Definition args_comision_ejemplo : argumentos :=
  ArgsPorComision "003" "Carlos" (mkdate 2020 1 1) 2000000 0.05 25000000.

End Binary64.

(** * Properties *)

(** ** Numbers *)

Lemma Qltb_true_iff (a b : Q) : Qltb a b = true <-> a < b.
Proof.
  unfold Qltb. rewrite negb_true_iff.
  destruct (Qle_bool b a) eqn:E.
  - apply Qle_bool_iff in E. split; [discriminate | intro L].
    exfalso. apply (Qlt_irrefl a). apply Qlt_le_trans with b; assumption.
  - split; [intros _ | reflexivity].
    apply Qnot_le_lt. intro L. apply Qle_bool_iff in L. congruence.
Qed.

Lemma Qltb_false_iff (a b : Q) : Qltb a b = false <-> b <= a.
Proof.
  unfold Qltb. rewrite negb_false_iff. apply Qle_bool_iff.
Qed.

(** Case analysis on a comparison, leaving the order fact in context. *)
Ltac caso_Qltb a b :=
  let E := fresh "E" in
  destruct (Qltb a b) eqn:E;
  [ apply Qltb_true_iff in E | apply Qltb_false_iff in E ].

Lemma py_max_Qmax (a b : Q) : py_max a b == Qmax a b.
Proof.
  unfold py_max. caso_Qltb a b.
  - symmetry. apply Q.max_r. apply Qlt_le_weak. assumption.
  - symmetry. apply Q.max_l. assumption.
Qed.

Lemma py_min_Qmin (a b : Q) : py_min a b == Qmin a b.
Proof.
  unfold py_min. caso_Qltb b a.
  - symmetry. apply Q.min_r. apply Qlt_le_weak. assumption.
  - symmetry. apply Q.min_l. assumption.
Qed.

Lemma py_max_0_nonneg (x : Q) : 0 <= py_max 0 x.
Proof.
  unfold py_max. caso_Qltb 0 x; lra.
Qed.

Lemma py_max_0_id (x : Q) : 0 <= x -> py_max 0 x == x.
Proof.
  intro Hx. unfold py_max. caso_Qltb 0 x; lra.
Qed.

(** ** Dates *)

Lemma par_ltb_iff (a b c d : Z) :
  par_ltb (a, b) (c, d) = true <-> (a < c \/ (a = c /\ b < d))%Z.
Proof.
  unfold par_ltb. cbn [fst snd].
  rewrite orb_true_iff, andb_true_iff, !Z.ltb_lt, Z.eqb_eq. tauto.
Qed.

Lemma date_ltb_iff (a b : date) : date_ltb a b = true <-> date_lt a b.
Proof.
  unfold date_ltb, date_lt.
  rewrite orb_true_iff, andb_true_iff, par_ltb_iff, Z.ltb_lt, Z.eqb_eq.
  tauto.
Qed.

Lemma date_eq (a b : date) :
  year a = year b -> month a = month b -> day a = day b -> a = b.
Proof.
  destruct a, b. cbn. intros -> -> ->. reflexivity.
Qed.

Lemma date_leb_iff (a b : date) : date_leb a b = true <-> date_le a b.
Proof.
  unfold date_leb, date_le. rewrite negb_true_iff.
  destruct (date_ltb b a) eqn:E.
  - apply date_ltb_iff in E. split; [discriminate |].
    unfold date_lt in *. intros [-> | H]; lia.
  - split; [intros _ | reflexivity].
    assert (N : ~ date_lt b a).
    { intro L. apply date_ltb_iff in L. congruence. }
    unfold date_lt in *.
    destruct (Z.lt_trichotomy (year a) (year b)) as [|[Hy|]]; [tauto | | lia].
    destruct (Z.lt_trichotomy (month a) (month b)) as [|[Hm|]];
      [tauto | | lia].
    destruct (Z.lt_trichotomy (day a) (day b)) as [|[Hd|]]; [tauto | | lia].
    left. apply date_eq; assumption.
Qed.

Lemma date_lt_not_le (a b : date) : date_lt a b <-> ~ date_le b a.
Proof.
  rewrite <- date_leb_iff, <- date_ltb_iff. unfold date_leb.
  destruct (date_ltb a b); cbn; split; congruence.
Qed.

Example strftime_ejemplo :
  strftime_Ymd (mkdate 2025 12 31) = "2025-12-31"%string.
Proof. reflexivity. Qed.

(** The day number grows by the length of the year from one first of
    January to the next. *)
Lemma days_before_year_succ (y : Z) :
  days_before_year (y + 1) =
  (days_before_year y + (if is_leap y then 366 else 365))%Z.
Proof.
  unfold days_before_year, is_leap. cbv zeta.
  replace (y + 1 - 1)%Z with y by lia.
  destruct (Z.eqb_spec (y mod 4) 0), (Z.eqb_spec (y mod 100) 0),
    (Z.eqb_spec (y mod 400) 0); cbn [negb andb orb];
    Z.div_mod_to_equations; lia.
Qed.

Lemma days_before_year_mono (a b : Z) :
  (a <= b)%Z -> (days_before_year a <= days_before_year b)%Z.
Proof.
  unfold days_before_year. cbv zeta. intro H.
  Z.div_mod_to_equations. lia.
Qed.

Lemma mes_casos (m : Z) :
  (1 <= m <= 12)%Z ->
  m = 1%Z \/ m = 2%Z \/ m = 3%Z \/ m = 4%Z \/ m = 5%Z \/ m = 6%Z \/
  m = 7%Z \/ m = 8%Z \/ m = 9%Z \/ m = 10%Z \/ m = 11%Z \/ m = 12%Z.
Proof. lia. Qed.

Ltac por_mes m H :=
  destruct (mes_casos m H) as [?|[?|[?|[?|[?|[?|[?|[?|[?|[?|[?|?]]]]]]]]]]];
  subst m.

(** A month ends where the next one starts. *)
Lemma days_before_month_succ (y m : Z) :
  (1 <= m < 12)%Z ->
  (days_before_month y m + days_in_month y m = days_before_month y (m + 1))%Z.
Proof.
  intro H. assert (H' : (1 <= m <= 12)%Z) by lia.
  por_mes m H'; try lia; unfold days_before_month, days_in_month;
    destruct (is_leap y); reflexivity.
Qed.

Lemma days_before_month_year (y : Z) :
  (days_before_month y 12 + days_in_month y 12 =
   if is_leap y then 366 else 365)%Z.
Proof.
  unfold days_before_month, days_in_month. destruct (is_leap y); reflexivity.
Qed.

Lemma days_in_month_pos (y m : Z) : (28 <= days_in_month y m)%Z.
Proof.
  unfold days_in_month.
  destruct (m =? 2)%Z; [destruct (is_leap y); lia |].
  destruct ((m =? 4)%Z || (m =? 6)%Z || (m =? 9)%Z || (m =? 11)%Z); lia.
Qed.

Lemma days_before_month_mono (y m n : Z) :
  (1 <= m)%Z -> (m < n)%Z -> (n <= 12)%Z ->
  (days_before_month y m + days_in_month y m <= days_before_month y n)%Z.
Proof.
  intros Hm Hlt Hn.
  assert (Hm' : (1 <= m <= 12)%Z) by lia.
  assert (Hn' : (1 <= n <= 12)%Z) by lia.
  por_mes m Hm'; por_mes n Hn'; try lia;
    unfold days_before_month, days_in_month; destruct (is_leap y);
    cbn; lia.
Qed.

Lemma days_before_month_bounds (y m : Z) :
  (1 <= m <= 12)%Z ->
  (0 <= days_before_month y m /\
   days_before_month y m + days_in_month y m <=
     if is_leap y then 366 else 365)%Z.
Proof.
  intro H.
  por_mes m H; unfold days_before_month, days_in_month; destruct (is_leap y);
    cbn; lia.
Qed.

(** [toordinal] respects the order of dates. *)
Lemma toordinal_lt (a b : date) :
  fecha_valida a -> fecha_valida b ->
  date_lt a b -> (toordinal a < toordinal b)%Z.
Proof.
  intros (Hya & Hma & Hda) (Hyb & Hmb & Hdb) L. unfold toordinal.
  pose proof (days_before_month_bounds (year a) (month a) Hma) as [_ Ba].
  pose proof (days_before_month_bounds (year b) (month b) Hmb) as [Bb _].
  destruct L as [Ly | [Ey [Lm | [Em Ld]]]].
  - pose proof (days_before_year_succ (year a)) as S.
    pose proof (days_before_year_mono (year a + 1) (year b)) as M.
    lia.
  - rewrite Ey in *.
    pose proof (days_before_month_mono (year b) (month a) (month b)).
    lia.
  - rewrite Ey, Em. lia.
Qed.

Lemma toordinal_inj_le (a b : date) :
  fecha_valida a -> fecha_valida b ->
  (date_le a b <-> (toordinal a <= toordinal b)%Z).
Proof.
  intros Va Vb. split.
  - intros [-> | L]; [lia |]. apply Z.lt_le_incl, toordinal_lt; assumption.
  - intro H. destruct (date_leb a b) eqn:E.
    + apply date_leb_iff. assumption.
    + exfalso. unfold date_leb in E. apply negb_false_iff in E.
      apply date_ltb_iff in E.
      pose proof (toordinal_lt b a Vb Va E). lia.
Qed.

Example toordinal_ejemplo : toordinal (mkdate 2020 1 1) = 737425%Z.
Proof. reflexivity. Qed.

(** ** Net pay and deductions, for every class at once *)

Section PropiedadesHeredadas.

Context {T : Type} `{Nomina T}.

Lemma calcular_deducciones_eq (self : T) (g : Q) :
  calcular_deducciones self g = g * 0.04.
Proof. reflexivity. Qed.

Lemma calcular_salario_neto_eq (hoy : date) (self : T) :
  calcular_salario_neto hoy self =
  py_max 0 (calcular_salario_bruto self + calcular_beneficios hoy self
            - calcular_deducciones self (calcular_salario_bruto self)).
Proof. reflexivity. Qed.

Lemma calcular_salario_neto_nonneg (hoy : date) (self : T) :
  0 <= calcular_salario_neto hoy self.
Proof. rewrite calcular_salario_neto_eq. apply py_max_0_nonneg. Qed.

Lemma calcular_salario_neto_sin_piso (hoy : date) (self : T) :
  0 <= calcular_salario_bruto self ->
  0 <= calcular_beneficios hoy self ->
  calcular_salario_neto hoy self ==
  calcular_salario_bruto self + calcular_beneficios hoy self
  - calcular_deducciones self (calcular_salario_bruto self).
Proof.
  intros Hb Hn. rewrite calcular_salario_neto_eq.
  apply py_max_0_id. rewrite calcular_deducciones_eq. lra.
Qed.

End PropiedadesHeredadas.

(** C1: for every employee of any class, and so for every validly
    constructed one, [calcular_salario_neto] returns
    [max(0, gross + benefits - deductions)] with gross, benefits and
    deductions as the employee's own methods give them, and the result is
    never negative. *)
Theorem C1_salario_neto_max (hoy : date) (e : empleado) :
  let bruto := calcular_salario_bruto e in
  let beneficios := calcular_beneficios hoy e in
  let deducciones := calcular_deducciones e bruto in
  calcular_salario_neto hoy e == Qmax 0 (bruto + beneficios - deducciones)
  /\ 0 <= calcular_salario_neto hoy e.
Proof.
  cbv zeta. split.
  - rewrite calcular_salario_neto_eq. apply py_max_Qmax.
  - apply calcular_salario_neto_nonneg.
Qed.

(** C2: for every employee of any class and every gross amount [g],
    [calcular_deducciones(g)] is [g * 0.04]; the method is found in the base
    class [Empleado] from every class, none of the four concrete classes
    defines it, and two employees of any classes get the same deduction for
    the same gross amount. *)
Theorem C2_deducciones_cuatro_por_ciento :
  (forall (e : empleado) (g : Q), calcular_deducciones e g == g * 0.04)
  /\ (forall e : empleado,
        resolver (clase_de e) M_calcular_deducciones = Some CEmpleado)
  /\ (forall e : empleado,
        define (clase_de e) M_calcular_deducciones = false)
  /\ (forall (e1 e2 : empleado) (g : Q),
        calcular_deducciones e1 g = calcular_deducciones e2 g).
Proof.
  split; [| split; [| split]].
  - intros e g. rewrite calcular_deducciones_eq. reflexivity.
  - intros []; reflexivity.
  - intros []; reflexivity.
  - intros e1 e2 g. rewrite !calcular_deducciones_eq. reflexivity.
Qed.

(** ** Eligibility thresholds *)

Lemma bono_antiguedad_cases (hoy : date) (a : EmpleadoAsalariado.t) :
  (5 < obtener_antiguedad_años hoy a)%Z /\
    EmpleadoAsalariado._calcular_bono_antiguedad hoy a
    = EmpleadoAsalariado.salario_mensual a * 0.10
  \/ (obtener_antiguedad_años hoy a <= 5)%Z /\
    EmpleadoAsalariado._calcular_bono_antiguedad hoy a = 0.
Proof.
  unfold EmpleadoAsalariado._calcular_bono_antiguedad, obtener_antiguedad_años.
  cbn [super EmpleadoAsalariado.nomina].
  unfold EmpleadoAsalariado.AÑOS_MINIMOS_BONO.
  destruct (Z.ltb_spec 5
    (Empleado.obtener_antiguedad_años hoy (EmpleadoAsalariado.base a)));
    [left | right]; split; (lia || reflexivity).
Qed.

Lemma fondo_ahorro_cases (hoy : date) (h : EmpleadoPorHoras.t) :
  ((1 < obtener_antiguedad_años hoy h)%Z /\
     EmpleadoPorHoras._acepta_fondo_ahorro h = true) /\
    EmpleadoPorHoras._calcular_fondo_ahorro hoy h
    = calcular_salario_bruto h * 0.02
  \/ ((obtener_antiguedad_años hoy h <= 1)%Z \/
      EmpleadoPorHoras._acepta_fondo_ahorro h = false) /\
    EmpleadoPorHoras._calcular_fondo_ahorro hoy h = 0.
Proof.
  unfold EmpleadoPorHoras._calcular_fondo_ahorro, obtener_antiguedad_años.
  cbn [super calcular_salario_bruto EmpleadoPorHoras.nomina].
  unfold EmpleadoPorHoras.AÑOS_MINIMOS_FONDO.
  destruct (Z.ltb_spec 1
    (Empleado.obtener_antiguedad_años hoy (EmpleadoPorHoras.base h)));
    destruct (EmpleadoPorHoras._acepta_fondo_ahorro h); cbn [andb];
    [left | right | right | right]; split;
    try reflexivity; try (split; (lia || reflexivity)); auto.
Qed.

Lemma bono_ventas_cases (c : EmpleadoPorComision.t) :
  20000000 < EmpleadoPorComision.ventas_mes c /\
    EmpleadoPorComision._calcular_bono_ventas c
    = EmpleadoPorComision.ventas_mes c * 0.03
  \/ EmpleadoPorComision.ventas_mes c <= 20000000 /\
    EmpleadoPorComision._calcular_bono_ventas c = 0.
Proof.
  unfold EmpleadoPorComision._calcular_bono_ventas,
    EmpleadoPorComision.ventas_mes, EmpleadoPorComision.VENTAS_MINIMAS_BONO.
  caso_Qltb 20000000 (EmpleadoPorComision._ventas_mes c);
    [left | right]; split; (assumption || reflexivity).
Qed.

(** C3: every eligibility threshold is strict.  At a tenure of exactly 5
    years the seniority bonus is 0; at a tenure of exactly 1 year, or when
    the fund was not accepted, the savings fund is 0; at sales of exactly
    20,000,000 the sales bonus is 0.  A bonus that is not 0 was earned
    strictly above its threshold. *)
Theorem C3_umbrales_estrictos
    (hoy : date) (a : EmpleadoAsalariado.t) (h : EmpleadoPorHoras.t)
    (c : EmpleadoPorComision.t) :
  (obtener_antiguedad_años hoy a = 5%Z ->
     EmpleadoAsalariado._calcular_bono_antiguedad hoy a = 0)
  /\ (obtener_antiguedad_años hoy h = 1%Z \/
      EmpleadoPorHoras._acepta_fondo_ahorro h = false ->
      EmpleadoPorHoras._calcular_fondo_ahorro hoy h = 0)
  /\ (EmpleadoPorComision.ventas_mes c == 20000000 ->
      EmpleadoPorComision._calcular_bono_ventas c = 0)
  /\ (~ EmpleadoAsalariado._calcular_bono_antiguedad hoy a == 0 ->
      (5 < obtener_antiguedad_años hoy a)%Z)
  /\ (~ EmpleadoPorHoras._calcular_fondo_ahorro hoy h == 0 ->
      (1 < obtener_antiguedad_años hoy h)%Z /\
      EmpleadoPorHoras._acepta_fondo_ahorro h = true)
  /\ (~ EmpleadoPorComision._calcular_bono_ventas c == 0 ->
      20000000 < EmpleadoPorComision.ventas_mes c).
Proof.
  split; [| split; [| split; [| split; [| split]]]].
  - intro E.
    destruct (bono_antiguedad_cases hoy a) as [[T _] | [_ B]];
      [lia | exact B].
  - intro E.
    destruct (fondo_ahorro_cases hoy h) as [[[T A] _] | [_ B]];
      [| exact B].
    destruct E as [E | E]; [lia | congruence].
  - intro E.
    destruct (bono_ventas_cases c) as [[T _] | [_ B]]; [| exact B].
    rewrite E in T. exfalso. apply (Qlt_irrefl _ T).
  - intro N.
    destruct (bono_antiguedad_cases hoy a) as [[T _] | [_ B]];
      [exact T |].
    exfalso. apply N. rewrite B. reflexivity.
  - intro N.
    destruct (fondo_ahorro_cases hoy h) as [[[T A] _] | [_ B]];
      [split; assumption |].
    exfalso. apply N. rewrite B. reflexivity.
  - intro N.
    destruct (bono_ventas_cases c) as [[T _] | [_ B]]; [exact T |].
    exfalso. apply N. rewrite B. reflexivity.
Qed.

Lemma C3_umbrales_estrictos_witness :
  EmpleadoAsalariado._calcular_bono_antiguedad hoy_ejemplo
    (asalariado_ejemplo (mkdate 2020 1 15)) = 0
  /\ EmpleadoPorHoras._calcular_fondo_ahorro hoy_ejemplo
       (por_horas_ejemplo (mkdate 2024 1 15) 40 true) = 0
  /\ EmpleadoPorComision._calcular_bono_ventas
       (por_comision_ejemplo 20000000) = 0
  /\ (5 < obtener_antiguedad_años hoy_ejemplo
            (asalariado_ejemplo (mkdate 2018 1 15)))%Z
  /\ (1 < obtener_antiguedad_años hoy_ejemplo
            (por_horas_ejemplo (mkdate 2022 1 1) 40 true))%Z
  /\ 20000000 < EmpleadoPorComision.ventas_mes (por_comision_ejemplo 25000000).
Proof.
  destruct (C3_umbrales_estrictos hoy_ejemplo
              (asalariado_ejemplo (mkdate 2020 1 15))
              (por_horas_ejemplo (mkdate 2024 1 15) 40 true)
              (por_comision_ejemplo 20000000))
    as (H1 & H2 & H3 & _).
  destruct (C3_umbrales_estrictos hoy_ejemplo
              (asalariado_ejemplo (mkdate 2018 1 15))
              (por_horas_ejemplo (mkdate 2022 1 1) 40 true)
              (por_comision_ejemplo 25000000))
    as (_ & _ & _ & H4 & H5 & H6).
  split; [| split; [| split; [| split; [| split]]]].
  - apply H1. reflexivity.
  - apply H2. left. reflexivity.
  - apply H3. reflexivity.
  - apply H4. vm_compute. discriminate.
  - apply H5. vm_compute. discriminate.
  - apply H6. vm_compute. discriminate.
Defined.

(** ** Commission employees *)

(** C4: with monthly sales [s] above 20,000,000 the sales bonus is 3% of
    the whole of [s], not of the part above the threshold, and the benefits
    are [1,000,000 + 0.03 * s]; with base salary 2,000,000, commission rate
    0.05 and sales 25,000,000 the commission is 1,250,000, the gross pay
    3,250,000, the sales bonus 750,000 and the benefits 1,750,000. *)
Theorem C4_bono_ventas_sobre_total :
  (forall (hoy : date) (c : EmpleadoPorComision.t),
     20000000 < EmpleadoPorComision.ventas_mes c ->
     EmpleadoPorComision._calcular_bono_ventas c
       == 0.03 * EmpleadoPorComision.ventas_mes c
     /\ ~ EmpleadoPorComision._calcular_bono_ventas c
          == 0.03 * (EmpleadoPorComision.ventas_mes c - 20000000)
     /\ calcular_beneficios hoy c
          == 1000000 + 0.03 * EmpleadoPorComision.ventas_mes c)
  /\ (forall (hoy : date) (b : Empleado.t),
        let c := EmpleadoPorComision.mk b 2000000 0.05 25000000 in
        EmpleadoPorComision._calcular_comision c == 1250000
        /\ calcular_salario_bruto c == 3250000
        /\ EmpleadoPorComision._calcular_bono_ventas c == 750000
        /\ calcular_beneficios hoy c == 1750000).
Proof.
  split.
  - intros hoy c S.
    assert (B : EmpleadoPorComision._calcular_bono_ventas c
                == 0.03 * EmpleadoPorComision.ventas_mes c).
    { destruct (bono_ventas_cases c) as [[_ B] | [T _]].
      - rewrite B. lra.
      - lra. }
    split; [exact B |]. split.
    + rewrite B. lra.
    + cbn [calcular_beneficios EmpleadoPorComision.nomina].
      unfold EmpleadoPorComision.calcular_beneficios,
        EmpleadoPorComision.BONO_ALIMENTACION.
      cbv zeta. rewrite B. reflexivity.
  - intros hoy b c. repeat split.
Qed.

Lemma C4_bono_ventas_sobre_total_witness :
  EmpleadoPorComision._calcular_bono_ventas (por_comision_ejemplo 20000001)
    == 0.03 * 20000001.
Proof.
  apply (proj1 C4_bono_ventas_sobre_total hoy_ejemplo
           (por_comision_ejemplo 20000001)).
  reflexivity.
Defined.

(** ** Hourly employees *)

Lemma horas_extras_Qmax (h : EmpleadoPorHoras.t) :
  EmpleadoPorHoras._calcular_horas_extras h
    == Qmax (EmpleadoPorHoras.horas_trabajadas h - 40) 0.
Proof.
  unfold EmpleadoPorHoras._calcular_horas_extras,
    EmpleadoPorHoras.horas_trabajadas,
    EmpleadoPorHoras.HORAS_NORMALES_LIMITE.
  caso_Qltb 40 (EmpleadoPorHoras._horas_trabajadas h).
  - symmetry. apply Q.max_l. lra.
  - symmetry. apply Q.max_r. lra.
Qed.

(** C5: the gross pay of an hourly employee is
    [min(hours, 40) * rate + max(hours - 40, 0) * rate * 1.5]; with rate
    50,000 and 45 hours it is 2,375,000; up to 40 hours the overtime hours
    and the overtime pay are 0. *)
Theorem C5_salario_bruto_por_horas :
  (forall h : EmpleadoPorHoras.t,
     calcular_salario_bruto h
       == Qmin (EmpleadoPorHoras.horas_trabajadas h) 40
            * EmpleadoPorHoras.tarifa_por_hora h
          + Qmax (EmpleadoPorHoras.horas_trabajadas h - 40) 0
            * EmpleadoPorHoras.tarifa_por_hora h * 1.5)
  /\ (forall (b : Empleado.t) (acepta : bool),
        calcular_salario_bruto (EmpleadoPorHoras.mk b 50000 45 acepta)
          == 2375000)
  /\ (forall h : EmpleadoPorHoras.t,
        EmpleadoPorHoras.horas_trabajadas h <= 40 ->
        EmpleadoPorHoras._calcular_horas_extras h == 0
        /\ calcular_salario_bruto h
             == EmpleadoPorHoras.horas_trabajadas h
                * EmpleadoPorHoras.tarifa_por_hora h).
Proof.
  split; [| split].
  - intro h. cbn [calcular_salario_bruto EmpleadoPorHoras.nomina].
    unfold EmpleadoPorHoras.calcular_salario_bruto. cbv zeta.
    rewrite horas_extras_Qmax.
    unfold EmpleadoPorHoras._calcular_horas_normales.
    rewrite py_min_Qmin. reflexivity.
  - intros b acepta. reflexivity.
  - intros h L.
    assert (X : EmpleadoPorHoras._calcular_horas_extras h == 0).
    { rewrite horas_extras_Qmax. apply Q.max_r. lra. }
    split; [exact X |].
    cbn [calcular_salario_bruto EmpleadoPorHoras.nomina].
    unfold EmpleadoPorHoras.calcular_salario_bruto. cbv zeta.
    rewrite X. unfold EmpleadoPorHoras._calcular_horas_normales.
    rewrite py_min_Qmin, Q.min_l by exact L.
    unfold EmpleadoPorHoras.horas_trabajadas,
      EmpleadoPorHoras.tarifa_por_hora. ring.
Qed.

Lemma C5_salario_bruto_por_horas_witness :
  EmpleadoPorHoras._calcular_horas_extras
    (por_horas_ejemplo (mkdate 2022 1 1) 35 false) == 0
  /\ calcular_salario_bruto (por_horas_ejemplo (mkdate 2022 1 1) 35 false)
     == 35 * 50000.
Proof.
  apply (proj2 (proj2 C5_salario_bruto_por_horas)
           (por_horas_ejemplo (mkdate 2022 1 1) 35 false)).
  vm_compute. discriminate.
Defined.

(** ** Construction *)

Lemma py_not_true_iff (s : string) : py_not s = true <-> s = EmptyString.
Proof. destruct s; cbn; split; congruence. Qed.

Lemma raise_if_cases (c : bool) (m : string) :
  c = true /\ raise_if c m = Error m \/ c = false /\ raise_if c m = Ok tt.
Proof. destruct c; [left | right]; split; reflexivity. Qed.

(** The base constructor fails exactly on invalid basic data, and
    otherwise yields the object holding its arguments. *)
Lemma Empleado_init_cases (hoy : date) (i n : string) (f : date) :
  datos_basicos_invalidos hoy i n f /\
    (exists m, Empleado.__init__ hoy i n f = Error m)
  \/ ~ datos_basicos_invalidos hoy i n f /\
    Empleado.__init__ hoy i n f = Ok (Empleado.mk i n f).
Proof.
  unfold Empleado.__init__, Empleado._validar_datos, datos_basicos_invalidos.
  cbn [Empleado._id_empleado Empleado._nombre Empleado._fecha_ingreso].
  destruct (py_not i) eqn:Ei.
  { left. apply py_not_true_iff in Ei. split; [tauto | eexists; reflexivity]. }
  destruct (py_not n) eqn:En.
  { left. apply py_not_true_iff in En. split; [tauto | eexists; reflexivity]. }
  destruct (date_ltb hoy f) eqn:Ef.
  { left. apply date_ltb_iff in Ef. split; [tauto | eexists; reflexivity]. }
  right. split; [| reflexivity].
  intros [H | [H | H]].
  - apply py_not_true_iff in H. congruence.
  - apply py_not_true_iff in H. congruence.
  - apply date_ltb_iff in H. congruence.
Qed.

Lemma Qle_bool_false_iff (a b : Q) : Qle_bool a b = false <-> b < a.
Proof.
  rewrite <- Qltb_true_iff. unfold Qltb.
  destruct (Qle_bool a b); cbn; split; congruence.
Qed.

(** Every constructor call either fails, and then exactly because a
    validation condition holds, or yields the object holding the
    arguments. *)
Lemma construir_cases (hoy : date) (a : argumentos) :
  condicion_invalida hoy a /\ (exists m, construir hoy a = Error m)
  \/ ~ condicion_invalida hoy a /\ construir hoy a = Ok (objeto_de a).
Proof.
  destruct a as [i n f s | i n f t h ac | i n f s p v | i n f s fin];
    cbn [construir condicion_invalida objeto_de];
    unfold EmpleadoAsalariado.__init__, EmpleadoPorHoras.__init__,
      EmpleadoPorComision.__init__, EmpleadoTemporal.__init__;
    (destruct (Empleado_init_cases hoy i n f) as [[B [m ->]] | [B ->]];
     [left; split; [tauto | eexists; reflexivity] |]);
    cbn [bind].
  - destruct (Qle_bool s 0) eqn:Es; cbn [raise_if bind].
    + apply Qle_bool_iff in Es.
      left. split; [tauto | eexists; reflexivity].
    + apply Qle_bool_false_iff in Es.
      right. split; [| reflexivity]. intros [H | H]; [tauto | lra].
  - destruct (Qle_bool t 0) eqn:Et; cbn [raise_if bind].
    { apply Qle_bool_iff in Et.
      left. split; [tauto | eexists; reflexivity]. }
    apply Qle_bool_false_iff in Et.
    caso_Qltb h 0; cbn [raise_if bind].
    { left. split; [tauto | eexists; reflexivity]. }
    right. split; [| reflexivity]. intros [H | [H | H]]; [tauto | lra | lra].
  - destruct (Qle_bool s 0) eqn:Es; cbn [raise_if bind].
    { apply Qle_bool_iff in Es.
      left. split; [tauto | eexists; reflexivity]. }
    apply Qle_bool_false_iff in Es.
    caso_Qltb p 0; cbn [orb raise_if bind].
    { left. split; [tauto | eexists; reflexivity]. }
    caso_Qltb 1 p; cbn [orb raise_if bind].
    { left. split; [tauto | eexists; reflexivity]. }
    caso_Qltb v 0; cbn [raise_if bind].
    { left. split; [tauto | eexists; reflexivity]. }
    right. split; [| reflexivity].
    intros [H | [H | [[H | H] | H]]]; [tauto | lra | lra | lra | lra].
  - destruct (Qle_bool s 0) eqn:Es; cbn [raise_if bind].
    { apply Qle_bool_iff in Es.
      left. split; [tauto | eexists; reflexivity]. }
    apply Qle_bool_false_iff in Es.
    destruct (date_leb fin f) eqn:Ef; cbn [raise_if bind].
    { apply date_leb_iff in Ef.
      left. split; [tauto | eexists; reflexivity]. }
    right. split; [| reflexivity].
    intros [H | [H | H]]; [tauto | lra |].
    apply date_leb_iff in H. congruence.
Qed.

(** An object holding arguments that pass validation is in a valid
    state. *)
Lemma objeto_de_valido (hoy : date) (a : argumentos) :
  ~ condicion_invalida hoy a -> estado_valido (objeto_de a).
Proof.
  destruct a as [i n f s | i n f t h ac | i n f s p v | i n f s fin];
    cbn [condicion_invalida objeto_de]; unfold datos_basicos_invalidos;
    intro N; (split; [split; cbn; intro; tauto |]); cbn.
  - apply Qnot_le_lt. tauto.
  - split; [apply Qnot_le_lt | apply Qnot_lt_le]; tauto.
  - repeat split; try (apply Qnot_le_lt; tauto); apply Qnot_lt_le; tauto.
  - split; [apply Qnot_le_lt; tauto |].
    apply date_lt_not_le. tauto.
Qed.

(** ** Setters *)

(** C7: each setter, given a negative value, raises and leaves the object
    as it was; given a value that is not negative, it stores that value and
    changes no other field. *)
Theorem C7_setters (horas ventas : Q) (h : EmpleadoPorHoras.t)
    (c : EmpleadoPorComision.t) :
  (horas < 0 ->
   exists m, EmpleadoPorHoras.set_horas_trabajadas horas h = (Error m, h))
  /\ (0 <= horas ->
      exists h',
        EmpleadoPorHoras.set_horas_trabajadas horas h = (Ok tt, h')
        /\ EmpleadoPorHoras.horas_trabajadas h' = horas
        /\ EmpleadoPorHoras.base h' = EmpleadoPorHoras.base h
        /\ EmpleadoPorHoras.tarifa_por_hora h'
           = EmpleadoPorHoras.tarifa_por_hora h
        /\ EmpleadoPorHoras._acepta_fondo_ahorro h'
           = EmpleadoPorHoras._acepta_fondo_ahorro h)
  /\ (ventas < 0 ->
      exists m, EmpleadoPorComision.set_ventas_mes ventas c = (Error m, c))
  /\ (0 <= ventas ->
      exists c',
        EmpleadoPorComision.set_ventas_mes ventas c = (Ok tt, c')
        /\ EmpleadoPorComision.ventas_mes c' = ventas
        /\ EmpleadoPorComision.base c' = EmpleadoPorComision.base c
        /\ EmpleadoPorComision.salario_base c'
           = EmpleadoPorComision.salario_base c
        /\ EmpleadoPorComision.porcentaje_comision c'
           = EmpleadoPorComision.porcentaje_comision c).
Proof.
  unfold EmpleadoPorHoras.set_horas_trabajadas,
    EmpleadoPorComision.set_ventas_mes.
  split; [| split; [| split]].
  - intro N. apply Qltb_true_iff in N. rewrite N. eexists. reflexivity.
  - intro P. apply Qltb_false_iff in P. rewrite P. eexists.
    repeat split.
  - intro N. apply Qltb_true_iff in N. rewrite N. eexists. reflexivity.
  - intro P. apply Qltb_false_iff in P. rewrite P. eexists.
    repeat split.
Qed.

Lemma C7_setters_witness :
  (exists m,
     EmpleadoPorHoras.set_horas_trabajadas (-10)
       (por_horas_ejemplo (mkdate 2022 1 1) 40 true)
     = (Error m, por_horas_ejemplo (mkdate 2022 1 1) 40 true))
  /\ (exists c',
        EmpleadoPorComision.set_ventas_mes 25000000 (por_comision_ejemplo 0)
        = (Ok tt, c')
        /\ EmpleadoPorComision.ventas_mes c' = 25000000
        /\ EmpleadoPorComision.base c'
           = EmpleadoPorComision.base (por_comision_ejemplo 0)
        /\ EmpleadoPorComision.salario_base c'
           = EmpleadoPorComision.salario_base (por_comision_ejemplo 0)
        /\ EmpleadoPorComision.porcentaje_comision c'
           = EmpleadoPorComision.porcentaje_comision (por_comision_ejemplo 0)).
Proof.
  destruct (C7_setters (-10) 25000000
              (por_horas_ejemplo (mkdate 2022 1 1) 40 true)
              (por_comision_ejemplo 0)) as (H1 & _ & _ & H4).
  split.
  - apply H1. reflexivity.
  - apply H4. vm_compute. discriminate.
Defined.

(** ** Temporary employees *)

(** The day number of the next calendar day is one more. *)
Lemma toordinal_dia_siguiente (d : date) :
  fecha_valida d -> toordinal (dia_siguiente d) = (toordinal d + 1)%Z.
Proof.
  intros (Hy & Hm & Hd). unfold dia_siguiente, toordinal.
  destruct (Z.ltb_spec (day d) (days_in_month (year d) (month d))) as [L | L];
    cbn [year month day]; [lia |].
  destruct (Z.ltb_spec (month d) 12) as [M | M]; cbn [year month day].
  - rewrite <- days_before_month_succ by lia. lia.
  - assert (E : month d = 12%Z) by lia. rewrite E in *.
    rewrite days_before_year_succ.
    pose proof (days_before_month_year (year d)) as Y.
    replace (days_before_month (year d + 1) 1)
      with (if is_leap (year d + 1) then 0 else 0)%Z
      by (unfold days_before_month; destruct (is_leap (year d + 1));
          reflexivity).
    destruct (is_leap (year d + 1)); lia.
Qed.

(** C8: the contract is active exactly while the current date is not after
    the end date, the end date included; the days remaining are the end
    date minus the current date in days: 0 on the end date, one less with
    each day that passes, and negative once the contract has expired. *)
Theorem C8_contrato_temporal (hoy : date) (t : EmpleadoTemporal.t) :
  fecha_valida hoy ->
  fecha_valida (EmpleadoTemporal.fecha_fin_contrato t) ->
  (EmpleadoTemporal.contrato_vigente hoy t = true
   <-> date_le hoy (EmpleadoTemporal.fecha_fin_contrato t))
  /\ EmpleadoTemporal.contrato_vigente
       (EmpleadoTemporal.fecha_fin_contrato t) t = true
  /\ EmpleadoTemporal.dias_restantes_contrato hoy t
     = (toordinal (EmpleadoTemporal.fecha_fin_contrato t) - toordinal hoy)%Z
  /\ EmpleadoTemporal.dias_restantes_contrato
       (EmpleadoTemporal.fecha_fin_contrato t) t = 0%Z
  /\ EmpleadoTemporal.dias_restantes_contrato (dia_siguiente hoy) t
     = (EmpleadoTemporal.dias_restantes_contrato hoy t - 1)%Z
  /\ (date_lt (EmpleadoTemporal.fecha_fin_contrato t) hoy
      <-> (EmpleadoTemporal.dias_restantes_contrato hoy t < 0)%Z).
Proof.
  intros Vh Vf.
  unfold EmpleadoTemporal.contrato_vigente,
    EmpleadoTemporal.dias_restantes_contrato, date_sub_days,
    EmpleadoTemporal.fecha_fin_contrato in *.
  cbv zeta.
  split; [apply date_leb_iff |].
  split; [apply date_leb_iff; left; reflexivity |].
  split; [reflexivity |].
  split; [lia |].
  split; [rewrite toordinal_dia_siguiente by assumption; lia |].
  rewrite date_lt_not_le.
  rewrite (toordinal_inj_le hoy (EmpleadoTemporal._fecha_fin_contrato t))
    by assumption.
  lia.
Qed.

Lemma C8_contrato_temporal_witness :
  EmpleadoTemporal.dias_restantes_contrato (mkdate 2026 1 1) temporal_ejemplo
  = (-1)%Z
  /\ EmpleadoTemporal.contrato_vigente (mkdate 2025 12 31) temporal_ejemplo
     = true.
Proof.
  assert (Vh : fecha_valida (mkdate 2025 12 31)).
  { unfold fecha_valida. cbn. lia. }
  assert (Vf : fecha_valida
                 (EmpleadoTemporal.fecha_fin_contrato temporal_ejemplo)).
  { unfold fecha_valida. cbn. lia. }
  destruct (C8_contrato_temporal (mkdate 2025 12 31) temporal_ejemplo Vh Vf)
    as (_ & A & _ & Z0 & S & _).
  split; [| exact A].
  change (mkdate 2026 1 1) with (dia_siguiente (mkdate 2025 12 31)).
  rewrite S.
  change (mkdate 2025 12 31)
    with (EmpleadoTemporal.fecha_fin_contrato temporal_ejemplo).
  rewrite Z0. reflexivity.
Defined.

(** ** The payroll breakdown *)

Lemma sin_repetidos_NoDup (l : list string) :
  sin_repetidos l = true -> NoDup l.
Proof.
  induction l as [| x r IH]; cbn [sin_repetidos]; intro F; constructor.
  - apply andb_true_iff in F. destruct F as [F _].
    apply negb_true_iff in F. intro I.
    assert (X : existsb (String.eqb x) r = true).
    { apply existsb_exists. exists x. split; [exact I |].
      apply String.eqb_refl. }
    congruence.
  - apply IH. apply andb_true_iff in F. tauto.
Qed.

(** The breakdown of an hourly employee has the employee name and the type
    tag before the fields that the specification lists for the class, so
    its keys are not exactly the listed ones. *)
Lemma C9_detalle_campos_counterexample :
  ~ (forall (hoy : date) (e : empleado),
       claves (obtener_detalle_nomina hoy e) = campos_listados (clase_de e)).
Proof.
  intro H.
  specialize (H hoy_ejemplo
                (PorHoras (por_horas_ejemplo (mkdate 2022 1 1) 45 false))).
  discriminate H.
Qed.

(** C9, amended: the breakdown of every employee is an ordered mapping
    whose keys are the employee name and the type tag followed by exactly
    the fields listed for the class, in the listed order and without
    repetition; its entry for the deductions is 0.04 times its entry for
    the gross pay, which is the gross pay of the employee, and its entry
    for the net pay is [calcular_salario_neto]. *)
Theorem C9_detalle_nomina (hoy : date) (e : empleado) :
  let d := obtener_detalle_nomina hoy e in
  claves d = ("empleado" :: "tipo" :: campos_propios (clase_de e))%string
  /\ NoDup (claves d)
  /\ dict_get d "empleado" = Some (VStr (nombre e))
  /\ dict_get d "salario_bruto" = Some (VNum (calcular_salario_bruto e))
  /\ (exists ded : Q,
        dict_get d "deducciones" = Some (VNum ded)
        /\ ded == 0.04 * calcular_salario_bruto e)
  /\ dict_get d "salario_neto" = Some (VNum (calcular_salario_neto hoy e)).
Proof.
  cbv zeta.
  destruct e as [a | h | c | t]; cbn [obtener_detalle_nomina clase_de];
    (split; [reflexivity |]);
    (split; [apply sin_repetidos_NoDup; reflexivity |]);
    (split; [reflexivity |]); (split; [reflexivity |]);
    (split; [| reflexivity]);
    (eexists; split; [reflexivity |]);
    rewrite calcular_deducciones_eq; cbn; ring.
Qed.

(** ** Valid employees are never clamped *)

Lemma set_horas_trabajadas_valido (horas : Q) (h h' : EmpleadoPorHoras.t)
    (r : resultado unit) :
  EmpleadoPorHoras.set_horas_trabajadas horas h = (r, h') ->
  estado_valido (PorHoras h) -> estado_valido (PorHoras h').
Proof.
  unfold EmpleadoPorHoras.set_horas_trabajadas.
  caso_Qltb horas 0; intro S; inversion S; subst; [tauto |].
  intros (B & T & _). split; [exact B |]. split; [exact T | exact E].
Qed.

Lemma set_ventas_mes_valido (ventas : Q) (c c' : EmpleadoPorComision.t)
    (r : resultado unit) :
  EmpleadoPorComision.set_ventas_mes ventas c = (r, c') ->
  estado_valido (PorComision c) -> estado_valido (PorComision c').
Proof.
  unfold EmpleadoPorComision.set_ventas_mes.
  caso_Qltb ventas 0; intro S; inversion S; subst; [tauto |].
  intros (B & Sb & P & _). split; [exact B |].
  split; [exact Sb |]. split; [exact P | exact E].
Qed.

(** Construction and the setters keep every employee in a valid state. *)
Lemma construido_valido (e : empleado) : construido e -> estado_valido e.
Proof.
  induction 1 as [hoy a e C | h h' horas r _ IH S | c c' ventas r _ IH S].
  - destruct (construir_cases hoy a) as [[_ [m E]] | [N E]];
      rewrite E in C; [discriminate |].
    injection C as <-. eapply objeto_de_valido. eassumption.
  - eapply set_horas_trabajadas_valido; eassumption.
  - eapply set_ventas_mes_valido; eassumption.
Qed.

Lemma salario_bruto_nonneg (e : empleado) :
  estado_valido e -> 0 <= calcular_salario_bruto e.
Proof.
  destruct e as [a | h | c | t]; intros [_ V];
    cbn [calcular_salario_bruto nomina_empleado].
  - unfold EmpleadoAsalariado.calcular_salario_bruto,
      EmpleadoAsalariado.salario_mensual in *. lra.
  - destruct V as [T Hh].
    unfold EmpleadoPorHoras.tarifa_por_hora,
      EmpleadoPorHoras.horas_trabajadas in *.
    unfold EmpleadoPorHoras.calcular_salario_bruto,
      EmpleadoPorHoras._calcular_horas_normales,
      EmpleadoPorHoras._calcular_horas_extras,
      EmpleadoPorHoras.HORAS_NORMALES_LIMITE,
      EmpleadoPorHoras.MULTIPLICADOR_HORAS_EXTRAS, py_min.
    cbv zeta.
    caso_Qltb 40 (EmpleadoPorHoras._horas_trabajadas h); nra.
  - destruct V as (Sb & [P0 P1] & Vm).
    unfold EmpleadoPorComision.salario_base,
      EmpleadoPorComision.porcentaje_comision,
      EmpleadoPorComision.ventas_mes in *.
    unfold EmpleadoPorComision.calcular_salario_bruto,
      EmpleadoPorComision._calcular_comision.
    cbv zeta. nra.
  - destruct V as [Sm _].
    unfold EmpleadoTemporal.calcular_salario_bruto,
      EmpleadoTemporal.salario_mensual in *. lra.
Qed.

Lemma beneficios_nonneg (hoy : date) (e : empleado) :
  estado_valido e -> 0 <= calcular_beneficios hoy e.
Proof.
  intro V. pose proof (salario_bruto_nonneg e V) as G.
  destruct e as [a | h | c | t]; destruct V as [_ V];
    cbn [calcular_beneficios calcular_salario_bruto nomina_empleado] in *.
  - unfold EmpleadoAsalariado.calcular_beneficios,
      EmpleadoAsalariado.BONO_ALIMENTACION. cbv zeta.
    unfold EmpleadoAsalariado.calcular_salario_bruto in G.
    destruct (bono_antiguedad_cases hoy a) as [[_ B] | [_ B]]; rewrite B;
      unfold EmpleadoAsalariado.salario_mensual; lra.
  - unfold EmpleadoPorHoras.calcular_beneficios.
    destruct (fondo_ahorro_cases hoy h) as [[_ B] | [_ B]]; rewrite B;
      cbn [calcular_salario_bruto EmpleadoPorHoras.nomina]; lra.
  - unfold EmpleadoPorComision.calcular_beneficios,
      EmpleadoPorComision.BONO_ALIMENTACION. cbv zeta.
    destruct (bono_ventas_cases c) as [[T B] | [_ B]]; rewrite B; lra.
  - unfold EmpleadoTemporal.calcular_beneficios. lra.
Qed.

(** C10, amended: for every employee built by a constructor, also after
    any calls of the setters, whose amounts are finite numbers and whose
    pay is computed without overflow (amounts as exact rationals), the
    gross pay and the benefits are not negative, so
    gross + benefits - 0.04 * gross is not negative either and the net pay
    is gross + benefits - deductions: the floor at 0 changes nothing. *)
Theorem C10_piso_sin_efecto (hoy : date) (e : empleado) :
  construido e ->
  0 <= calcular_salario_bruto e
  /\ 0 <= calcular_beneficios hoy e
  /\ 0 <= calcular_salario_bruto e + calcular_beneficios hoy e
          - 0.04 * calcular_salario_bruto e
  /\ calcular_salario_neto hoy e
     == calcular_salario_bruto e + calcular_beneficios hoy e
        - calcular_deducciones e (calcular_salario_bruto e).
Proof.
  intro C. apply construido_valido in C.
  pose proof (salario_bruto_nonneg e C) as G.
  pose proof (beneficios_nonneg hoy e C) as B.
  split; [exact G |]. split; [exact B |]. split; [lra |].
  apply calcular_salario_neto_sin_piso; assumption.
Qed.

Lemma C10_piso_sin_efecto_witness :
  calcular_salario_neto hoy_ejemplo (objeto_de args_por_horas_ejemplo)
  == calcular_salario_bruto (objeto_de args_por_horas_ejemplo)
     + calcular_beneficios hoy_ejemplo (objeto_de args_por_horas_ejemplo)
     - calcular_deducciones (objeto_de args_por_horas_ejemplo)
         (calcular_salario_bruto (objeto_de args_por_horas_ejemplo)).
Proof.
  apply (C10_piso_sin_efecto hoy_ejemplo (objeto_de args_por_horas_ejemplo)).
  apply (construido_nuevo hoy_ejemplo args_por_horas_ejemplo).
  reflexivity.
Defined.

(** * Further properties of the model *)

(** ** Tenure *)

Ltac casos_Z :=
  repeat match goal with
  | |- context [(?a <? ?b)%Z] => destruct (Z.ltb_spec a b)
  | |- context [(?a =? ?b)%Z] => destruct (Z.eqb_spec a b)
  end.

Lemma antiguedad_ge_iff (hoy : date) (b : Empleado.t) (n : Z) :
  (n <= Empleado.obtener_antiguedad_años hoy b)%Z
  <-> date_le (aniversario (Empleado.fecha_ingreso b) n) hoy.
Proof.
  rewrite <- date_leb_iff.
  unfold Empleado.obtener_antiguedad_años, Empleado.fecha_ingreso,
    aniversario, date_leb, date_ltb, par_ltb.
  cbn [year month day fst snd]. cbv zeta.
  casos_Z; cbn; split; intro; try lia; try congruence.
Qed.

Lemma antiguedad_mono (hoy1 hoy2 : date) (b : Empleado.t) :
  date_le hoy1 hoy2 ->
  (Empleado.obtener_antiguedad_años hoy1 b
   <= Empleado.obtener_antiguedad_años hoy2 b)%Z.
Proof.
  rewrite <- date_leb_iff.
  unfold Empleado.obtener_antiguedad_años, date_leb, date_ltb, par_ltb.
  cbn [fst snd]. cbv zeta.
  casos_Z; cbn; intro; try lia; try congruence.
Qed.

Lemma aniversario_0 (f d : date) :
  date_le f d <-> date_le (aniversario f 0) d.
Proof.
  unfold aniversario. rewrite Z.add_0_r. destruct f. reflexivity.
Qed.

(** A constructor accepts no hire date after the current date. *)
Lemma construir_fecha_ingreso (hoy : date) (a : argumentos) (e : empleado) :
  construir hoy a = Ok e ->
  e = objeto_de a /\ ~ condicion_invalida hoy a
  /\ date_le (Empleado.fecha_ingreso (super e)) hoy.
Proof.
  intro C.
  destruct (construir_cases hoy a) as [[_ [m E]] | [N E]];
    rewrite E in C; [discriminate |].
  injection C as <-. split; [reflexivity |]. split; [exact N |].
  apply date_leb_iff. unfold date_leb. apply negb_true_iff.
  destruct (date_ltb hoy (Empleado.fecha_ingreso (super (objeto_de a))))
    eqn:F; [| reflexivity].
  exfalso. apply N. apply date_ltb_iff in F.
  destruct a; cbn in F |- *; unfold datos_basicos_invalidos; tauto.
Qed.

(** X1: the tenure is at least [n] years exactly when the [n]-th
    anniversary of the hire date is not after the current date: whole
    years are counted, a started year is not. *)
Theorem X1_antiguedad_aniversario (hoy : date) (e : empleado) (n : Z) :
  (n <= obtener_antiguedad_años hoy e)%Z
  <-> date_le (aniversario (Empleado.fecha_ingreso (super e)) n) hoy.
Proof.
  unfold obtener_antiguedad_años. apply antiguedad_ge_iff.
Qed.

(** X2: the tenure of an employee never decreases as the current date
    advances. *)
Theorem X2_antiguedad_monotona (hoy1 hoy2 : date) (e : empleado) :
  date_le hoy1 hoy2 ->
  (obtener_antiguedad_años hoy1 e <= obtener_antiguedad_años hoy2 e)%Z.
Proof.
  unfold obtener_antiguedad_años. apply antiguedad_mono.
Qed.

Lemma X2_antiguedad_monotona_witness :
  (obtener_antiguedad_años (mkdate 2025 1 14)
     (Asalariado (asalariado_ejemplo (mkdate 2020 1 15)))
   <= obtener_antiguedad_años (mkdate 2025 1 15)
        (Asalariado (asalariado_ejemplo (mkdate 2020 1 15))))%Z.
Proof.
  apply (X2_antiguedad_monotona (mkdate 2025 1 14) (mkdate 2025 1 15)).
  right. right. split; [reflexivity |]. right. split; [reflexivity |].
  cbn. lia.
Defined.

(** X3: an employee of any class built with the clock at [hoy] has a
    tenure of 0 or more on that date and on every later one; on a date
    before the hire date the tenure is negative. *)
Theorem X3_antiguedad_no_negativa (hoy despues : date) (a : argumentos)
    (e : empleado) :
  construir hoy a = Ok e ->
  date_le hoy despues ->
  (0 <= obtener_antiguedad_años hoy e)%Z
  /\ (0 <= obtener_antiguedad_años despues e)%Z
  /\ (forall antes : date,
        date_lt antes (Empleado.fecha_ingreso (super e)) ->
        (obtener_antiguedad_años antes e < 0)%Z).
Proof.
  intros C L. apply construir_fecha_ingreso in C. destruct C as (_ & _ & I).
  unfold obtener_antiguedad_años.
  assert (H0 : (0 <= Empleado.obtener_antiguedad_años hoy (super e))%Z).
  { apply (proj2 (antiguedad_ge_iff hoy (super e) 0)).
    apply (proj1 (aniversario_0 _ _)). exact I. }
  split; [exact H0 |]. split.
  - apply Z.le_trans with (Empleado.obtener_antiguedad_años hoy (super e)).
    + exact H0.
    + apply antiguedad_mono. exact L.
  - intros antes F.
    destruct (Z.lt_ge_cases
                (Empleado.obtener_antiguedad_años antes (super e)) 0)
      as [H | H]; [exact H |].
    exfalso.
    apply (proj1 (antiguedad_ge_iff antes (super e) 0)) in H.
    apply (proj2 (aniversario_0 _ _)) in H.
    apply date_lt_not_le in F. contradiction.
Qed.

Lemma X3_antiguedad_no_negativa_witness :
  (0 <= obtener_antiguedad_años hoy_ejemplo
          (objeto_de args_por_horas_ejemplo))%Z
  /\ (0 <= obtener_antiguedad_años (mkdate 2026 3 1)
             (objeto_de args_por_horas_ejemplo))%Z
  /\ (forall antes : date,
        date_lt antes
          (Empleado.fecha_ingreso (super (objeto_de args_por_horas_ejemplo)))
        -> (obtener_antiguedad_años antes
              (objeto_de args_por_horas_ejemplo) < 0)%Z).
Proof.
  apply (X3_antiguedad_no_negativa hoy_ejemplo (mkdate 2026 3 1)
           args_por_horas_ejemplo).
  - reflexivity.
  - right. left. cbn. lia.
Defined.

(** X4: the seniority bonus of a salaried employee is 10% of the salary
    from the sixth anniversary of the hire date on and 0 before it; the
    savings fund of an hourly employee who accepted it is 2% of the gross
    pay from the second anniversary on and 0 before it or when it was not
    accepted. *)
Theorem X4_bonos_por_aniversario (hoy : date) (a : EmpleadoAsalariado.t)
    (h : EmpleadoPorHoras.t) :
  EmpleadoAsalariado._calcular_bono_antiguedad hoy a
  = (if date_leb (aniversario (Empleado.fecha_ingreso (super a)) 6) hoy
     then EmpleadoAsalariado.salario_mensual a * 0.10
     else 0)
  /\ EmpleadoPorHoras._calcular_fondo_ahorro hoy h
     = (if date_leb (aniversario (Empleado.fecha_ingreso (super h)) 2) hoy
           && EmpleadoPorHoras._acepta_fondo_ahorro h
        then calcular_salario_bruto h * 0.02
        else 0).
Proof.
  split.
  - destruct (date_leb (aniversario (Empleado.fecha_ingreso (super a)) 6) hoy)
      eqn:D.
    + apply date_leb_iff, antiguedad_ge_iff in D.
      destruct (bono_antiguedad_cases hoy a) as [[_ B] | [T _]];
        [exact B |].
      unfold obtener_antiguedad_años in T. lia.
    + destruct (bono_antiguedad_cases hoy a) as [[T _] | [_ B]];
        [| exact B].
      exfalso. unfold obtener_antiguedad_años in T.
      assert (T6 : (6 <= Empleado.obtener_antiguedad_años hoy (super a))%Z)
        by lia.
      apply antiguedad_ge_iff, date_leb_iff in T6. congruence.
  - destruct (date_leb (aniversario (Empleado.fecha_ingreso (super h)) 2) hoy)
      eqn:D.
    + apply date_leb_iff, antiguedad_ge_iff in D.
      destruct (fondo_ahorro_cases hoy h) as [[[_ A] B] | [[T | A] B]];
        rewrite ?A; cbn [andb]; try assumption.
      unfold obtener_antiguedad_años in T. lia.
    + cbn [andb].
      destruct (fondo_ahorro_cases hoy h) as [[[T _] _] | [_ B]];
        [| exact B].
      exfalso. unfold obtener_antiguedad_años in T.
      assert (T2 : (2 <= Empleado.obtener_antiguedad_años hoy (super h))%Z)
        by lia.
      apply antiguedad_ge_iff, date_leb_iff in T2. congruence.
Qed.

(** ** Setters and constructors together *)

(** X12: building an hourly employee and then storing other hours through
    the setter gives the object that the constructor gives for those hours
    directly; likewise for the sales of a commission employee. *)
Theorem X12_setter_como_constructor (hoy : date) (i n : string) (f : date) :
  (forall (t h0 h1 : Q) (ac : bool) (e e' : EmpleadoPorHoras.t),
     construir hoy (ArgsPorHoras i n f t h0 ac) = Ok (PorHoras e) ->
     EmpleadoPorHoras.set_horas_trabajadas h1 e = (Ok tt, e') ->
     construir hoy (ArgsPorHoras i n f t h1 ac) = Ok (PorHoras e'))
  /\ (forall (s p v0 v1 : Q) (e e' : EmpleadoPorComision.t),
        construir hoy (ArgsPorComision i n f s p v0) = Ok (PorComision e) ->
        EmpleadoPorComision.set_ventas_mes v1 e = (Ok tt, e') ->
        construir hoy (ArgsPorComision i n f s p v1) = Ok (PorComision e')).
Proof.
  split.
  - intros t h0 h1 ac e e' C S.
    apply construir_fecha_ingreso in C. destruct C as (Eo & N & _).
    cbn [objeto_de] in Eo. injection Eo as ->.
    unfold EmpleadoPorHoras.set_horas_trabajadas in S.
    caso_Qltb h1 0; [discriminate |]. injection S as <-.
    destruct (construir_cases hoy (ArgsPorHoras i n f t h1 ac))
      as [[Inv _] | [_ Ok1]]; [| exact Ok1].
    exfalso. apply N. cbn [condicion_invalida] in *.
    destruct Inv as [B | [T | H]]; [tauto | tauto | lra].
  - intros s p v0 v1 e e' C S.
    apply construir_fecha_ingreso in C. destruct C as (Eo & N & _).
    cbn [objeto_de] in Eo. injection Eo as ->.
    unfold EmpleadoPorComision.set_ventas_mes in S.
    caso_Qltb v1 0; [discriminate |]. injection S as <-.
    destruct (construir_cases hoy (ArgsPorComision i n f s p v1))
      as [[Inv _] | [_ Ok1]]; [| exact Ok1].
    exfalso. apply N. cbn [condicion_invalida] in *.
    destruct Inv as [B | [T | [P | V]]]; [tauto | tauto | tauto | lra].
Qed.

Lemma X12_setter_como_constructor_witness :
  construir hoy_ejemplo
    (ArgsPorHoras "002" "Maria" (mkdate 2022 1 1) 50000 45 true)
  = Ok (PorHoras (por_horas_ejemplo (mkdate 2022 1 1) 45 true)).
Proof.
  apply (proj1 (X12_setter_como_constructor hoy_ejemplo "002" "Maria"
                  (mkdate 2022 1 1))
           50000 40 45 true (por_horas_ejemplo (mkdate 2022 1 1) 40 true)).
  - reflexivity.
  - reflexivity.
Defined.

(** X13: of two setter calls in a row the last successful one decides the
    stored value: after two successful calls the object is the one the
    second call alone gives, and a failing call between or after them
    changes nothing. *)
Theorem X13_setter_ultimo_gana (a b : Q) (h : EmpleadoPorHoras.t)
    (c : EmpleadoPorComision.t) :
  0 <= a ->
  (0 <= b ->
   snd (EmpleadoPorHoras.set_horas_trabajadas b
          (snd (EmpleadoPorHoras.set_horas_trabajadas a h)))
   = snd (EmpleadoPorHoras.set_horas_trabajadas b h))
  /\ (b < 0 ->
      snd (EmpleadoPorHoras.set_horas_trabajadas b
             (snd (EmpleadoPorHoras.set_horas_trabajadas a h)))
      = snd (EmpleadoPorHoras.set_horas_trabajadas a h))
  /\ (0 <= b ->
      snd (EmpleadoPorComision.set_ventas_mes b
             (snd (EmpleadoPorComision.set_ventas_mes a c)))
      = snd (EmpleadoPorComision.set_ventas_mes b c))
  /\ (b < 0 ->
      snd (EmpleadoPorComision.set_ventas_mes b
             (snd (EmpleadoPorComision.set_ventas_mes a c)))
      = snd (EmpleadoPorComision.set_ventas_mes a c)).
Proof.
  intro A. apply Qltb_false_iff in A.
  unfold EmpleadoPorHoras.set_horas_trabajadas,
    EmpleadoPorComision.set_ventas_mes.
  rewrite A. cbn [snd].
  split; [| split; [| split]]; intro B;
    (apply Qltb_false_iff in B || apply Qltb_true_iff in B);
    rewrite B; reflexivity.
Qed.

Lemma X13_setter_ultimo_gana_witness :
  snd (EmpleadoPorHoras.set_horas_trabajadas (-1)
         (snd (EmpleadoPorHoras.set_horas_trabajadas 45
                 (por_horas_ejemplo (mkdate 2022 1 1) 40 true))))
  = snd (EmpleadoPorHoras.set_horas_trabajadas 45
           (por_horas_ejemplo (mkdate 2022 1 1) 40 true)).
Proof.
  apply (X13_setter_ultimo_gana 45 (-1)
           (por_horas_ejemplo (mkdate 2022 1 1) 40 true)
           (por_comision_ejemplo 0)).
  - vm_compute. discriminate.
  - reflexivity.
Defined.

(** ** Which error a constructor reports *)

Lemma py_not_false_iff (s : string) : py_not s = false <-> s <> EmptyString.
Proof. destruct s; cbn; split; congruence. Qed.

(** X15: whatever else is wrong with the arguments, the constructor of
    every class reports an empty id or name first, and otherwise a hire
    date after the current date, each with the message of the base class. *)
Theorem X15_errores_basicos_primero (hoy : date) (a : argumentos) :
  (Empleado.id_empleado (super (objeto_de a)) = EmptyString
   \/ Empleado.nombre (super (objeto_de a)) = EmptyString ->
   construir hoy a = Error "ID y nombre son obligatorios")
  /\ (Empleado.id_empleado (super (objeto_de a)) <> EmptyString ->
      Empleado.nombre (super (objeto_de a)) <> EmptyString ->
      date_lt hoy (Empleado.fecha_ingreso (super (objeto_de a))) ->
      construir hoy a = Error "La fecha de ingreso no puede ser futura").
Proof.
  split.
  - intro H.
    assert (P : py_not (Empleado.id_empleado (super (objeto_de a)))
                || py_not (Empleado.nombre (super (objeto_de a))) = true).
    { apply orb_true_iff. rewrite !py_not_true_iff. exact H. }
    destruct a; cbn in P |- *;
      unfold EmpleadoAsalariado.__init__, EmpleadoPorHoras.__init__,
        EmpleadoPorComision.__init__, EmpleadoTemporal.__init__,
        Empleado.__init__, Empleado._validar_datos;
      cbn [Empleado._id_empleado Empleado._nombre]; rewrite P; reflexivity.
  - intros Hi Hn Hf.
    assert (Pi : py_not (Empleado.id_empleado (super (objeto_de a))) = false)
      by (apply py_not_false_iff; exact Hi).
    assert (Pn : py_not (Empleado.nombre (super (objeto_de a))) = false)
      by (apply py_not_false_iff; exact Hn).
    apply date_ltb_iff in Hf.
    destruct a; cbn in Pi, Pn, Hf |- *;
      unfold EmpleadoAsalariado.__init__, EmpleadoPorHoras.__init__,
        EmpleadoPorComision.__init__, EmpleadoTemporal.__init__,
        Empleado.__init__, Empleado._validar_datos;
      cbn [Empleado._id_empleado Empleado._nombre Empleado._fecha_ingreso];
      rewrite Pi, Pn, Hf; reflexivity.
Qed.

Lemma X15_errores_basicos_primero_witness :
  construir hoy_ejemplo (ArgsPorHoras "" "Maria" (mkdate 2030 1 1) 0 (-1) true)
  = Error "ID y nombre son obligatorios"
  /\ construir hoy_ejemplo
       (ArgsTemporal "004" "Ana" (mkdate 2030 1 1) 0 (mkdate 2029 1 1))
     = Error "La fecha de ingreso no puede ser futura".
Proof.
  split.
  - apply (proj1 (X15_errores_basicos_primero hoy_ejemplo
                    (ArgsPorHoras "" "Maria" (mkdate 2030 1 1) 0 (-1) true))).
    left. reflexivity.
  - apply (proj2 (X15_errores_basicos_primero hoy_ejemplo
                    (ArgsTemporal "004" "Ana" (mkdate 2030 1 1) 0
                       (mkdate 2029 1 1)))).
    + discriminate.
    + discriminate.
    + left. cbn. lia.
Defined.

(** ** Contracts of temporary employees *)

Lemma date_lt_trans (a b c : date) : date_lt a b -> date_lt b c -> date_lt a c.
Proof. unfold date_lt. intros H1 H2. lia. Qed.

(** X16: on the hire date the contract of a temporary employee that a
    constructor returned is active and has at least one day left. *)
Theorem X16_contrato_al_ingreso (hoy : date) (i n : string) (f : date)
    (s : Q) (fin : date) (t : EmpleadoTemporal.t) :
  fecha_valida f -> fecha_valida fin ->
  construir hoy (ArgsTemporal i n f s fin) = Ok (Temporal t) ->
  EmpleadoTemporal.contrato_vigente (Empleado.fecha_ingreso (super t)) t
  = true
  /\ (1 <= EmpleadoTemporal.dias_restantes_contrato
             (Empleado.fecha_ingreso (super t)) t)%Z.
Proof.
  intros Vf Vfin C.
  apply construir_fecha_ingreso in C. destruct C as (Eo & N & _).
  cbn [objeto_de] in Eo. injection Eo as ->.
  cbn [condicion_invalida] in N.
  assert (L : date_lt f fin) by (apply date_lt_not_le; tauto).
  unfold EmpleadoTemporal.contrato_vigente,
    EmpleadoTemporal.dias_restantes_contrato, date_sub_days.
  cbn. split.
  - apply date_leb_iff. right. exact L.
  - pose proof (toordinal_lt f fin Vf Vfin L). lia.
Qed.

Lemma X16_contrato_al_ingreso_witness :
  EmpleadoTemporal.contrato_vigente (mkdate 2024 1 1) temporal_ejemplo = true
  /\ (1 <= EmpleadoTemporal.dias_restantes_contrato (mkdate 2024 1 1)
             temporal_ejemplo)%Z.
Proof.
  apply (X16_contrato_al_ingreso hoy_ejemplo "004" "Ana" (mkdate 2024 1 1)
           3000000 (mkdate 2025 12 31) temporal_ejemplo).
  - unfold fecha_valida. cbn. lia.
  - unfold fecha_valida. cbn. lia.
  - reflexivity.
Defined.

(** X17: the constructor of a temporary employee does not compare the end
    of the contract with the current date: with valid basic data, a
    positive salary and an end date after the hire date it returns an
    employee even when the end date has passed, and that employee's
    contract is not active. *)
Theorem X17_contrato_vencido_aceptado (hoy : date) (i n : string) (f : date)
    (s : Q) (fin : date) :
  i <> EmptyString -> n <> EmptyString -> 0 < s ->
  date_lt f fin -> date_lt fin hoy ->
  exists t : EmpleadoTemporal.t,
    construir hoy (ArgsTemporal i n f s fin) = Ok (Temporal t)
    /\ EmpleadoTemporal.fecha_fin_contrato t = fin
    /\ EmpleadoTemporal.contrato_vigente hoy t = false.
Proof.
  intros Hi Hn Hs L1 L2.
  destruct (construir_cases hoy (ArgsTemporal i n f s fin))
    as [[Inv _] | [_ C]].
  - exfalso. cbn [condicion_invalida] in Inv.
    unfold datos_basicos_invalidos in Inv.
    destruct Inv as [[H | [H | H]] | [H | H]]; try contradiction.
    + apply date_lt_not_le in H. apply H. right.
      eapply date_lt_trans; eassumption.
    + lra.
    + apply date_lt_not_le in L1. contradiction.
  - eexists. split; [exact C |]. split; [reflexivity |].
    unfold EmpleadoTemporal.contrato_vigente. cbn.
    unfold date_leb. apply negb_false_iff. apply date_ltb_iff. exact L2.
Qed.

Lemma X17_contrato_vencido_aceptado_witness :
  exists t : EmpleadoTemporal.t,
    construir hoy_ejemplo
      (ArgsTemporal "004" "Ana" (mkdate 2023 1 1) 3000000 (mkdate 2023 12 31))
    = Ok (Temporal t)
    /\ EmpleadoTemporal.fecha_fin_contrato t = mkdate 2023 12 31
    /\ EmpleadoTemporal.contrato_vigente hoy_ejemplo t = false.
Proof.
  apply (X17_contrato_vencido_aceptado hoy_ejemplo "004" "Ana"
           (mkdate 2023 1 1) 3000000 (mkdate 2023 12 31)).
  - discriminate.
  - discriminate.
  - reflexivity.
  - right. split; [reflexivity |]. left. cbn. lia.
  - left. cbn. lia.
Defined.

(** ** The payroll total of the demonstration program *)

Lemma fold_total_desde (hoy : date) (l : list empleado) (x : Q) :
  fold_left (fun total emp => total + calcular_salario_neto hoy emp) l x
  == x + total_salarios hoy l.
Proof.
  unfold total_salarios. revert x.
  induction l as [| e r IH]; intro x; cbn [fold_left].
  - ring.
  - rewrite (IH (x + calcular_salario_neto hoy e)),
      (IH (0 + calcular_salario_neto hoy e)). ring.
Qed.

Lemma total_salarios_cons (hoy : date) (e : empleado) (l : list empleado) :
  total_salarios hoy (e :: l)
  == calcular_salario_neto hoy e + total_salarios hoy l.
Proof.
  unfold total_salarios at 1. cbn [fold_left].
  rewrite fold_total_desde. ring.
Qed.

Lemma total_salarios_nonneg (hoy : date) (l : list empleado) :
  0 <= total_salarios hoy l.
Proof.
  induction l as [| e r IH].
  - unfold total_salarios. cbn. lra.
  - rewrite total_salarios_cons.
    pose proof (calcular_salario_neto_nonneg hoy e). lra.
Qed.

(** X18: the payroll total is 0 for no employees, is never negative, and
    is at least the net pay of each employee in the list. *)
Theorem X18_total_salarios (hoy : date) (empleados : list empleado) :
  total_salarios hoy [] == 0
  /\ 0 <= total_salarios hoy empleados
  /\ (forall e : empleado,
        In e empleados ->
        calcular_salario_neto hoy e <= total_salarios hoy empleados).
Proof.
  split; [reflexivity |]. split; [apply total_salarios_nonneg |].
  induction empleados as [| x r IH]; intros e I; [destruct I |].
  rewrite total_salarios_cons.
  pose proof (total_salarios_nonneg hoy r) as T.
  pose proof (calcular_salario_neto_nonneg hoy x) as X.
  destruct I as [-> | I].
  - lra.
  - specialize (IH e I). lra.
Qed.

(** ** The text form of an employee *)

(** X19: the text form of an employee begins with the name of its class,
    so employees of different classes never have the same text form. *)
Theorem X19_str_distingue_clase (e1 e2 : empleado) :
  __str__ e1 = __str__ e2 -> clase_de e1 = clase_de e2.
Proof.
  unfold __str__.
  destruct e1, e2; cbn [clase_de nombre_clase append]; intro H;
    try reflexivity; discriminate H.
Qed.

Lemma X19_str_distingue_clase_witness :
  clase_de (Asalariado (asalariado_ejemplo (mkdate 2020 1 15)))
  = clase_de (Asalariado (asalariado_ejemplo (mkdate 2018 1 15))).
Proof.
  apply X19_str_distingue_clase. reflexivity.
Defined.

(** ** The labels of the printed breakdown *)

Lemma length_append (s t : string) :
  String.length (s ++ t) = (String.length s + String.length t)%nat.
Proof.
  induction s as [| c r IH]; cbn; [reflexivity | rewrite IH; reflexivity].
Qed.

Lemma length_puntos (n : nat) : String.length (puntos n) = n.
Proof.
  induction n as [| k IH]; cbn; [reflexivity | rewrite IH; reflexivity].
Qed.

Lemma length_replace_guion (s : string) :
  String.length (replace_guion s) = String.length s.
Proof.
  induction s as [| c r IH]; cbn; [reflexivity | rewrite IH; reflexivity].
Qed.

Lemma length_title_desde (previa : bool) (s : string) :
  String.length (title_desde previa s) = String.length s.
Proof.
  revert previa. induction s as [| c r IH]; intro previa; cbn;
    [reflexivity |].
  destruct (es_minuscula c || es_mayuscula c); cbn; rewrite IH; reflexivity.
Qed.

(** X20: the label printed for a key is as long as the key or 40
    characters, whichever is more; every key of every breakdown gets a
    label of exactly 40 characters, so the printed values line up. *)
Theorem X20_etiquetas_alineadas (hoy : date) (e : empleado) :
  (forall clave : string,
     String.length (etiqueta clave) = Nat.max 40 (String.length clave))
  /\ Forall (fun clave => String.length (etiqueta clave) = 40%nat)
       (claves (obtener_detalle_nomina hoy e)).
Proof.
  assert (L : forall clave : string,
             String.length (etiqueta clave)
             = Nat.max 40 (String.length clave)).
  { intro clave. unfold etiqueta, rellenar_40, title.
    rewrite length_append, length_puntos, length_title_desde,
      length_replace_guion. lia. }
  split; [exact L |].
  destruct e; cbn [obtener_detalle_nomina];
    unfold EmpleadoAsalariado.obtener_detalle_nomina,
      EmpleadoPorHoras.obtener_detalle_nomina,
      EmpleadoPorComision.obtener_detalle_nomina,
      EmpleadoTemporal.obtener_detalle_nomina;
    cbv zeta; cbn [claves map fst];
    repeat (constructor; [rewrite L; reflexivity |]); constructor.
Qed.


(** * Amounts as Python floats *)

Section Dobles.

#[local] Set Warnings "-inexact-float".
#[local] Open Scope float_scope.

(** ** Comparison of floats *)

Lemma SFcompare_antisym (x y : spec_float) :
  SFcompare y x = option_map CompOpp (SFcompare x y).
Proof.
  destruct x as [sx | sx | | sx mx ex], y as [sy | sy | | sy my ey];
    cbn; try reflexivity;
    try (destruct sx; reflexivity); try (destruct sy; reflexivity);
    try (destruct sx, sy; reflexivity).
  assert (P : Pos.compare_cont Eq my mx = CompOpp (Pos.compare_cont Eq mx my)).
  { rewrite (Pos.compare_cont_antisym mx my Eq). reflexivity. }
  destruct sx, sy; cbn; try reflexivity;
    rewrite (Z.compare_antisym ex ey), P;
    destruct (ex ?= ey)%Z; cbn; try reflexivity;
    destruct (Pos.compare_cont Eq mx my); reflexivity.
Qed.

Lemma is_nan_false (x : float) :
  is_nan x = false -> Prim2SF x <> S754_nan.
Proof.
  unfold is_nan. rewrite negb_false_iff, eqb_spec. intros E N.
  rewrite N in E. discriminate E.
Qed.

Lemma SFcompare_defined (x y : spec_float) :
  x <> S754_nan -> y <> S754_nan -> exists c, SFcompare x y = Some c.
Proof.
  intros Nx Ny.
  destruct x as [sx | sx | | sx mx ex], y as [sy | sy | | sy my ey];
    try contradiction; cbn; eexists; reflexivity.
Qed.

Lemma leb_negb_ltb (x y : float) :
  is_nan x = false -> is_nan y = false -> (x <=? y) = negb (y <? x).
Proof.
  intros Nx Ny. apply is_nan_false in Nx. apply is_nan_false in Ny.
  rewrite leb_spec, ltb_spec. unfold SFleb, SFltb.
  rewrite (SFcompare_antisym (Prim2SF x) (Prim2SF y)).
  destruct (SFcompare_defined _ _ Nx Ny) as [c ->].
  destruct c; reflexivity.
Qed.

Lemma ltb_leb (x y : float) : (x <? y) = true -> (x <=? y) = true.
Proof.
  rewrite leb_spec, ltb_spec. unfold SFleb, SFltb.
  destruct (SFcompare (Prim2SF x) (Prim2SF y)) as [[]|]; congruence.
Qed.

Lemma SFcompare_refl (x : spec_float) :
  x <> S754_nan -> SFcompare x x = Some Eq.
Proof.
  destruct x as [sx | sx | | sx mx ex]; try contradiction; intros _; cbn.
  - reflexivity.
  - destruct sx; reflexivity.
  - rewrite Z.compare_refl, Pos.compare_cont_refl. destruct sx; reflexivity.
Qed.

Lemma is_nan_true_iff (x : float) :
  is_nan x = true <-> Prim2SF x = S754_nan.
Proof.
  unfold is_nan. rewrite negb_true_iff, eqb_spec. unfold SFeqb. split.
  - intro E. destruct (Prim2SF x) eqn:P; try reflexivity;
      rewrite SFcompare_refl in E by discriminate; discriminate E.
  - intros ->. reflexivity.
Qed.

Lemma leb_not_nan (x y : float) :
  (x <=? y) = true -> is_nan x = false /\ is_nan y = false.
Proof.
  rewrite leb_spec. unfold SFleb. intro L.
  split; apply not_true_is_false; intro N; apply is_nan_true_iff in N;
    rewrite N in L; cbn in L; try discriminate L.
  destruct (Prim2SF x); discriminate L.
Qed.

(** A comparison with NaN on either side is false. *)
Lemma nan_compara_falso (x y : float) :
  is_nan x = true \/ is_nan y = true ->
  (x <=? y) = false /\ (x <? y) = false.
Proof.
  rewrite !is_nan_true_iff, leb_spec, ltb_spec. unfold SFleb, SFltb.
  intros [N | N]; rewrite N; [split; reflexivity |].
  destruct (Prim2SF x); split; reflexivity.
Qed.

Lemma leb_0_cases (x : float) :
  is_nan x = false ->
  (x <=? 0) = true /\ (0 <? x) = false
  \/ (x <=? 0) = false /\ (0 <? x) = true.
Proof.
  intro N. rewrite (leb_negb_ltb x 0 N eq_refl).
  destruct (0 <? x); [right | left]; split; reflexivity.
Qed.

Lemma ltb_0_cases (x : float) :
  is_nan x = false ->
  (x <? 0) = true /\ (0 <=? x) = false
  \/ (x <? 0) = false /\ (0 <=? x) = true.
Proof.
  intro N. rewrite (leb_negb_ltb 0 x eq_refl N).
  destruct (x <? 0); [left | right]; split; reflexivity.
Qed.

Lemma ltb_1_cases (x : float) :
  is_nan x = false ->
  (1 <? x) = true /\ (x <=? 1) = false
  \/ (1 <? x) = false /\ (x <=? 1) = true.
Proof.
  intro N. rewrite (leb_negb_ltb x 1 N eq_refl).
  destruct (1 <? x); [left | right]; split; reflexivity.
Qed.

(** ** Construction with float amounts *)

Ltac sin_nan_campos H :=
  unfold Binary64.sin_nan in H; cbn [Binary64.montos] in H;
  repeat match goal with
  | F : Forall _ (_ :: _) |- _ => inversion F; subst; clear F
  | F : Forall _ [] |- _ => clear F
  end.

(** When no amount is NaN, a constructor call either fails, and then
    exactly because a validation condition holds, or yields the object
    holding the arguments, in a valid state. *)
Lemma construir_cases_64 (hoy : date) (a : Binary64.argumentos) :
  Binary64.sin_nan a ->
  Binary64.condicion_invalida hoy a
    /\ (exists m, Binary64.construir hoy a = Error m)
  \/ ~ Binary64.condicion_invalida hoy a
    /\ Binary64.construir hoy a = Ok (Binary64.objeto_de a)
    /\ Binary64.estado_valido (Binary64.objeto_de a).
Proof.
  intro S.
  destruct a as [i n f s | i n f t h ac | i n f s p v | i n f s fin];
    sin_nan_campos S;
    cbn [Binary64.construir Binary64.condicion_invalida Binary64.objeto_de];
    unfold Binary64.EmpleadoAsalariado.__init__,
      Binary64.EmpleadoPorHoras.__init__,
      Binary64.EmpleadoPorComision.__init__,
      Binary64.EmpleadoTemporal.__init__, Binary64.Fle, Binary64.Flt;
    (destruct (Empleado_init_cases hoy i n f) as [[B [m ->]] | [B ->]];
     [left; split; [tauto | eexists; reflexivity] |]);
    cbn [bind];
    assert (V : datos_basicos_validos (Empleado.mk i n f))
      by (unfold datos_basicos_invalidos in B; split; cbn; intro; tauto).
  - destruct (leb_0_cases s) as [[L G] | [L G]]; [assumption | |];
      rewrite L; cbn [raise_if bind].
    + left. split; [tauto | eexists; reflexivity].
    + right. split; [intros [H | H]; [tauto | congruence] |].
      split; [reflexivity |]. split; [exact V | exact G].
  - destruct (leb_0_cases t) as [[L G] | [L G]]; [assumption | |];
      rewrite L; cbn [raise_if bind].
    { left. split; [tauto | eexists; reflexivity]. }
    destruct (ltb_0_cases h) as [[Lh Gh] | [Lh Gh]]; [assumption | |];
      rewrite Lh; cbn [raise_if bind].
    { left. split; [tauto | eexists; reflexivity]. }
    right. split; [intros [H | [H | H]]; [tauto | congruence | congruence] |].
    split; [reflexivity |]. split; [exact V |]. split; [exact G | exact Gh].
  - destruct (leb_0_cases s) as [[L G] | [L G]]; [assumption | |];
      rewrite L; cbn [raise_if bind].
    { left. split; [tauto | eexists; reflexivity]. }
    destruct (ltb_0_cases p) as [[Lp Gp] | [Lp Gp]]; [assumption | |];
      rewrite Lp; cbn [orb raise_if bind].
    { left. split; [| eexists; reflexivity].
      right. right. left. intros [H _]. congruence. }
    destruct (ltb_1_cases p) as [[Lp1 Gp1] | [Lp1 Gp1]]; [assumption | |];
      rewrite Lp1; cbn [orb raise_if bind].
    { left. split; [| eexists; reflexivity].
      right. right. left. intros [_ H]. congruence. }
    destruct (ltb_0_cases v) as [[Lv Gv] | [Lv Gv]]; [assumption | |];
      rewrite Lv; cbn [raise_if bind].
    { left. split; [tauto | eexists; reflexivity]. }
    right. split.
    { intros [H | [H | [H | H]]]; [tauto | congruence | | congruence].
      apply H. split; assumption. }
    split; [reflexivity |]. split; [exact V |].
    split; [exact G |]. split; [split; assumption | exact Gv].
  - destruct (leb_0_cases s) as [[L G] | [L G]]; [assumption | |];
      rewrite L; cbn [raise_if bind].
    { left. split; [tauto | eexists; reflexivity]. }
    destruct (date_leb fin f) eqn:Ef; cbn [raise_if bind].
    { apply date_leb_iff in Ef.
      left. split; [tauto | eexists; reflexivity]. }
    right. split.
    { intros [H | [H | H]]; [tauto | congruence |].
      apply date_leb_iff in H. congruence. }
    split; [reflexivity |]. split; [exact V |]. split; [exact G |].
    cbn. apply date_lt_not_le. intro H. apply date_leb_iff in H. congruence.
Qed.

(** C6, as the claim states it, fails on a commission rate that is NaN:
    the rate is not within [0, 1], yet the constructor raises nothing and
    returns an employee whose state is not valid. *)
Lemma C6_construccion_counterexample :
  ~ (forall (hoy : date) (a : Binary64.argumentos),
       (es_error (Binary64.construir hoy a) = true
        <-> Binary64.condicion_invalida hoy a)
       /\ (es_error (Binary64.construir hoy a) = false ->
           Binary64.estado_valido (Binary64.objeto_de a))).
Proof.
  intro H.
  destruct (H hoy_ejemplo Binary64.args_comision_nan) as [[_ H1] _].
  assert (E : es_error
                (Binary64.construir hoy_ejemplo Binary64.args_comision_nan)
              = true).
  { apply H1. right. right. left. intros [L _]. vm_compute in L.
    discriminate L. }
  vm_compute in E. discriminate E.
Qed.

(** C6, amended: when no numeric argument is NaN, constructing an
    employee of any class raises exactly when one of the validation
    conditions holds (empty id or name, hire date after the current date,
    or the condition of the class on its own fields).  A call that raises
    yields no object; a call that does not raise yields the object holding
    the arguments, in a valid state and hired no later than the current
    date. *)
Theorem C6_construccion_sin_nan (hoy : date) (a : Binary64.argumentos) :
  Binary64.sin_nan a ->
  (es_error (Binary64.construir hoy a) = true
   <-> Binary64.condicion_invalida hoy a)
  /\ (es_error (Binary64.construir hoy a) = true ->
      forall e : Binary64.empleado, Binary64.construir hoy a <> Ok e)
  /\ (es_error (Binary64.construir hoy a) = false ->
      Binary64.construir hoy a = Ok (Binary64.objeto_de a)
      /\ Binary64.estado_valido (Binary64.objeto_de a)
      /\ date_le
           (Empleado.fecha_ingreso (Binary64.super (Binary64.objeto_de a)))
           hoy).
Proof.
  intro S.
  destruct (construir_cases_64 hoy a S) as [[C [m E]] | (C & E & V)];
    rewrite E; cbn [es_error].
  - split; [tauto |]. split; [intros _ e; discriminate | discriminate].
  - split; [split; [discriminate | tauto] |].
    split; [discriminate | intros _].
    split; [reflexivity |]. split; [exact V |].
    apply date_leb_iff. unfold date_leb. apply negb_true_iff.
    destruct (date_ltb hoy
                (Empleado.fecha_ingreso
                   (Binary64.super (Binary64.objeto_de a)))) eqn:L;
      [| reflexivity].
    exfalso. apply C. apply date_ltb_iff in L.
    destruct a; cbn in L |- *; unfold datos_basicos_invalidos; tauto.
Qed.

Lemma C6_construccion_sin_nan_witness :
  Binary64.construir hoy_ejemplo Binary64.args_comision_ejemplo
  = Ok (Binary64.objeto_de Binary64.args_comision_ejemplo)
  /\ Binary64.estado_valido (Binary64.objeto_de Binary64.args_comision_ejemplo)
  /\ date_le
       (Empleado.fecha_ingreso
          (Binary64.super (Binary64.objeto_de Binary64.args_comision_ejemplo)))
       hoy_ejemplo.
Proof.
  apply (proj2 (proj2 (C6_construccion_sin_nan hoy_ejemplo
                         Binary64.args_comision_ejemplo
                         ltac:(repeat constructor)))).
  reflexivity.
Defined.

(** ** The floor of the net pay, with float amounts *)

(** C10, as the claim states it, fails on an infinite salary, which the
    constructor accepts: the deduction is infinite as well, gross plus
    benefits minus deductions is NaN, not a number that is 0 or more, and
    the floor turns it into 0. *)
Lemma C10_piso_sin_efecto_counterexample :
  ~ (forall (hoy : date) (a : Binary64.argumentos) (e : Binary64.empleado),
       Binary64.construir hoy a = Ok e ->
       Binary64.Fle 0 (Binary64.calcular_salario_bruto e)
       /\ Binary64.Fle 0 (Binary64.calcular_beneficios hoy e)
       /\ Binary64.Fle 0
            (Binary64.calcular_salario_bruto e
             + Binary64.calcular_beneficios hoy e
             - 0.04 * Binary64.calcular_salario_bruto e)
       /\ Binary64.calcular_salario_neto hoy e
          = Binary64.calcular_salario_bruto e
            + Binary64.calcular_beneficios hoy e
            - Binary64.calcular_deducciones e
                (Binary64.calcular_salario_bruto e)).
Proof.
  intro H.
  destruct (H hoy_ejemplo Binary64.args_salario_infinito
              (Binary64.objeto_de Binary64.args_salario_infinito) eq_refl)
    as (_ & _ & N & _).
  vm_compute in N. discriminate N.
Qed.

(** The same happens with finite amounts whose product overflows: at an
    hourly rate of 1e200 and 1e200 hours the gross pay is infinite, the sum
    is NaN and the net pay is 0. *)
Example piso_con_desbordamiento :
  Binary64.construir hoy_ejemplo Binary64.args_horas_desbordan
  = Ok (Binary64.objeto_de Binary64.args_horas_desbordan)
  /\ Binary64.calcular_salario_bruto
       (Binary64.objeto_de Binary64.args_horas_desbordan) = infinity
  /\ is_nan
       (Binary64.calcular_salario_bruto
          (Binary64.objeto_de Binary64.args_horas_desbordan)
        + Binary64.calcular_beneficios hoy_ejemplo
            (Binary64.objeto_de Binary64.args_horas_desbordan)
        - Binary64.calcular_deducciones
            (Binary64.objeto_de Binary64.args_horas_desbordan)
            (Binary64.calcular_salario_bruto
               (Binary64.objeto_de Binary64.args_horas_desbordan))) = true
  /\ Binary64.calcular_salario_neto hoy_ejemplo
       (Binary64.objeto_de Binary64.args_horas_desbordan) = 0.
Proof. repeat split. Qed.

(** ** Valid state with float amounts *)

(** X14: the state of every employee built by a constructor from amounts
    that are not NaN stays valid through any sequence of setter calls with
    values that are not NaN, failing calls included: id and name are never
    empty, salaries and rates are positive, hours and sales are not
    negative, the commission rate is between 0 and 1 and a contract ends
    after the hire date. *)
Theorem X14_estado_valido_sin_nan (e : Binary64.empleado) :
  Binary64.construido_sin_nan e -> Binary64.estado_valido e.
Proof.
  induction 1 as [hoy a e S C | h h' horas r _ IH N S | c c' ventas r _ IH N S].
  - destruct (construir_cases_64 hoy a S) as [[_ [m E]] | (_ & E & V)];
      rewrite E in C; [discriminate |].
    injection C as <-. exact V.
  - unfold Binary64.EmpleadoPorHoras.set_horas_trabajadas in S.
    destruct (ltb_0_cases horas N) as [[L G] | [L G]]; rewrite L in S;
      injection S as _ <-; [exact IH |].
    destruct IH as (B & T & _). split; [exact B |]. split; [exact T | exact G].
  - unfold Binary64.EmpleadoPorComision.set_ventas_mes in S.
    destruct (ltb_0_cases ventas N) as [[L G] | [L G]]; rewrite L in S;
      injection S as _ <-; [exact IH |].
    destruct IH as (B & Sb & P & _). split; [exact B |].
    split; [exact Sb |]. split; [exact P | exact G].
Qed.

Lemma X14_estado_valido_sin_nan_witness :
  Binary64.estado_valido
    (Binary64.PorComision
       (Binary64.EmpleadoPorComision.mk
          (Empleado.mk "003" "Carlos" (mkdate 2020 1 1)) 2000000 0.05 30000000)).
Proof.
  apply X14_estado_valido_sin_nan.
  apply (Binary64.construido_set_ventas
           (Binary64.EmpleadoPorComision.mk
              (Empleado.mk "003" "Carlos" (mkdate 2020 1 1)) 2000000 0.05
              30000000)
           _ (-1) (Error "Las ventas no pueden ser negativas"));
    [| reflexivity | reflexivity].
  apply (Binary64.construido_set_ventas
           (Binary64.EmpleadoPorComision.mk
              (Empleado.mk "003" "Carlos" (mkdate 2020 1 1)) 2000000 0.05
              25000000)
           _ 30000000 (Ok tt));
    [| reflexivity | reflexivity].
  apply (Binary64.construido_nuevo hoy_ejemplo Binary64.args_comision_ejemplo);
    [repeat constructor | reflexivity].
Defined.

(** ** Amounts that are not ordinary numbers *)

(** X23: a NaN passes every numeric check.  With basic data that are
    valid, each constructor given NaN for its amounts returns the employee
    that holds them, where the specification asks for positive salaries
    and rates, hours and sales that are not negative and a rate between 0
    and 1; and each setter given NaN stores it. *)
Theorem X23_nan_aceptado (hoy : date) (i n : string) (f fin : date)
    (ac : bool) (x : float) (h : Binary64.EmpleadoPorHoras.t)
    (c : Binary64.EmpleadoPorComision.t) :
  is_nan x = true ->
  ~ datos_basicos_invalidos hoy i n f ->
  Binary64.construir hoy (Binary64.ArgsAsalariado i n f x)
  = Ok (Binary64.objeto_de (Binary64.ArgsAsalariado i n f x))
  /\ Binary64.construir hoy (Binary64.ArgsPorHoras i n f x x ac)
     = Ok (Binary64.objeto_de (Binary64.ArgsPorHoras i n f x x ac))
  /\ Binary64.construir hoy (Binary64.ArgsPorComision i n f x x x)
     = Ok (Binary64.objeto_de (Binary64.ArgsPorComision i n f x x x))
  /\ (date_lt f fin ->
      Binary64.construir hoy (Binary64.ArgsTemporal i n f x fin)
      = Ok (Binary64.objeto_de (Binary64.ArgsTemporal i n f x fin)))
  /\ Binary64.EmpleadoPorHoras.set_horas_trabajadas x h
     = (Ok tt,
        Binary64.EmpleadoPorHoras.mk (Binary64.EmpleadoPorHoras.base h)
          (Binary64.EmpleadoPorHoras._tarifa_por_hora h) x
          (Binary64.EmpleadoPorHoras._acepta_fondo_ahorro h))
  /\ Binary64.EmpleadoPorComision.set_ventas_mes x c
     = (Ok tt,
        Binary64.EmpleadoPorComision.mk (Binary64.EmpleadoPorComision.base c)
          (Binary64.EmpleadoPorComision._salario_base c)
          (Binary64.EmpleadoPorComision._porcentaje_comision c) x)
  /\ ~ Binary64.estado_valido
         (Binary64.objeto_de (Binary64.ArgsAsalariado i n f x)).
Proof.
  intros N B.
  destruct (nan_compara_falso x 0 (or_introl N)) as [Lx0 Tx0].
  destruct (nan_compara_falso 0 x (or_intror N)) as [L0x T0x].
  destruct (nan_compara_falso 1 x (or_intror N)) as [_ T1x].
  cbn [Binary64.construir Binary64.objeto_de].
  unfold Binary64.EmpleadoAsalariado.__init__,
    Binary64.EmpleadoPorHoras.__init__,
    Binary64.EmpleadoPorComision.__init__,
    Binary64.EmpleadoTemporal.__init__,
    Binary64.EmpleadoPorHoras.set_horas_trabajadas,
    Binary64.EmpleadoPorComision.set_ventas_mes.
  destruct (Empleado_init_cases hoy i n f) as [[B' _] | [_ ->]];
    [contradiction |].
  rewrite Lx0, Tx0, T1x. cbn [orb raise_if bind].
  repeat (split; [reflexivity |]).
  split.
  - intro L. assert (E : date_leb fin f = false).
    { destruct (date_leb fin f) eqn:E; [| reflexivity].
      apply date_leb_iff in E. apply date_lt_not_le in L. contradiction. }
    rewrite E. reflexivity.
  - repeat (split; [reflexivity |]).
    intros [_ V]. unfold Binary64.Flt in V. cbn in V. congruence.
Qed.

Lemma X23_nan_aceptado_witness :
  Binary64.construir hoy_ejemplo
    (Binary64.ArgsPorComision "003" "Carlos" (mkdate 2020 1 1) nan nan nan)
  = Ok (Binary64.objeto_de
          (Binary64.ArgsPorComision "003" "Carlos" (mkdate 2020 1 1)
             nan nan nan)).
Proof.
  apply (X23_nan_aceptado hoy_ejemplo "003" "Carlos" (mkdate 2020 1 1)
           (mkdate 2021 1 1) true nan
           (Binary64.EmpleadoPorHoras.mk
              (Empleado.mk "002" "Maria" (mkdate 2022 1 1)) 50000 40 true)
           (Binary64.EmpleadoPorComision.mk
              (Empleado.mk "003" "Carlos" (mkdate 2020 1 1)) 2000000 0.05 0)).
  - reflexivity.
  - intros [H | [H | H]]; [discriminate H | discriminate H |].
    unfold date_lt in H. cbn in H. lia.
Defined.

(** X24: an infinite salary passes the check of the constructor, and the
    salaried or temporary employee that holds it has an infinite gross
    pay, an infinite deduction and a net pay of 0 on every date. *)
Theorem X24_salario_infinito (hoy hoy' : date) (i n : string)
    (f fin : date) :
  ~ datos_basicos_invalidos hoy i n f ->
  (Binary64.construir hoy (Binary64.ArgsAsalariado i n f infinity)
   = Ok (Binary64.objeto_de (Binary64.ArgsAsalariado i n f infinity))
   /\ Binary64.calcular_salario_neto hoy'
        (Binary64.objeto_de (Binary64.ArgsAsalariado i n f infinity)) = 0)
  /\ (date_lt f fin ->
      Binary64.construir hoy (Binary64.ArgsTemporal i n f infinity fin)
      = Ok (Binary64.objeto_de (Binary64.ArgsTemporal i n f infinity fin))
      /\ Binary64.calcular_salario_neto hoy'
           (Binary64.objeto_de (Binary64.ArgsTemporal i n f infinity fin))
         = 0).
Proof.
  intro B.
  cbn [Binary64.construir Binary64.objeto_de].
  unfold Binary64.EmpleadoAsalariado.__init__,
    Binary64.EmpleadoTemporal.__init__.
  destruct (Empleado_init_cases hoy i n f) as [[B' _] | [_ ->]];
    [contradiction |].
  cbn [bind]. split.
  - split; [reflexivity |].
    unfold Binary64.calcular_salario_neto, Binary64.calcular_deducciones.
    cbn [Binary64.calcular_salario_bruto Binary64.calcular_beneficios
         Binary64.nomina_empleado].
    unfold Binary64.EmpleadoAsalariado.calcular_beneficios,
      Binary64.EmpleadoAsalariado._calcular_bono_antiguedad,
      Binary64.EmpleadoAsalariado.calcular_salario_bruto.
    cbn [Binary64.EmpleadoAsalariado._salario_mensual
         Binary64.EmpleadoAsalariado.base].
    destruct (Binary64.EmpleadoAsalariado.AÑOS_MINIMOS_BONO
              <? Empleado.obtener_antiguedad_años hoy' (Empleado.mk i n f))%Z;
      reflexivity.
  - intro L. assert (E : date_leb fin f = false).
    { destruct (date_leb fin f) eqn:E; [| reflexivity].
      apply date_leb_iff in E. apply date_lt_not_le in L. contradiction. }
    rewrite E. split; reflexivity.
Qed.

Lemma X24_salario_infinito_witness :
  Binary64.construir hoy_ejemplo Binary64.args_salario_infinito
  = Ok (Binary64.objeto_de Binary64.args_salario_infinito)
  /\ Binary64.calcular_salario_neto (mkdate 2030 6 1)
       (Binary64.objeto_de Binary64.args_salario_infinito) = 0.
Proof.
  apply (X24_salario_infinito hoy_ejemplo (mkdate 2030 6 1) "001" "Juan"
           (mkdate 2020 1 1) (mkdate 2021 1 1)).
  intros [H | [H | H]]; [discriminate H | discriminate H |].
  unfold date_lt in H. cbn in H. lia.
Defined.

End Dobles.
